(** * supply-chain-siren: risk scoring, registry normalisation and cache

    A shallow embedding of [models.py], [scoring.py] and [osint.py] of the
    package [supply_chain_siren], followed by the properties of the
    specification that were checked against it.

    Conventions.
    - Python [str] is [string]; package names are taken to be ASCII.
    - Python [int] is [Z].
    - A call that may raise returns a [result]: [Ok v] for a normal return
      and [Raise e] for an exception of class [e] leaving the function.
    - Library calls the code relies on are modelled from their
      documentation where a property needs their value
      ([Levenshtein.distance], [datetime.fromisoformat], the aware/naive
      rule of [datetime.__sub__]); the others (the HTTP transport,
      pydantic's validation and serialisation, Python's ordering of values
      that are not both strings) are section variables.
    - The bundled resource [data/top_packages.json] is a section variable
      too. *)

From Stdlib Require Import ZArith QArith List String Ascii Bool Lia.
From Stdlib Require Import DecimalString.
From Stdlib Require Import Permutation Sorted.
From Stdlib Require OrderedTypeEx.
Import ListNotations.

Local Open Scope string_scope.
Local Open Scope Z_scope.

(** ** Exceptions and fallible calls *)

Inductive exn : Type :=
| HTTPError
| JSONDecodeError
| ValueError
| TypeError
| AttributeError
| ValidationError
| UnicodeDecodeError
| OSError.

Inductive result (A : Type) : Type :=
| Ok (a : A)
| Raise (e : exn).

Arguments Ok {A} a.
Arguments Raise {A} e.

Definition bind {A B : Type} (r : result A) (k : A -> result B) : result B :=
  match r with
  | Ok a => k a
  | Raise e => Raise e
  end.

Notation "x <- r ;; k" := (bind r (fun x => k))
  (at level 61, r at next level, right associativity).

(** ** JSON values, as [json.loads] builds them

    An object is a Python [dict]: an insertion-ordered list of bindings
    with distinct keys.  [JInt] is Python [int], [JFloat] a finite
    [float] (every finite double is a rational); the non-standard
    [NaN] and [Infinity] that [json.loads] also reads are left out. *)

#[warnings="-register-all"]
Inductive json : Type :=
| JNull
| JBool (b : bool)
| JInt (n : Z)
| JFloat (x : Q)
| JStr (s : string)
| JList (l : list json)
| JObj (kvs : list (string * json)).

Definition dict : Type := list (string * json).

Fixpoint dict_get (d : dict) (key : string) : option json :=
  match d with
  | [] => None
  | (k, v) :: d' => if String.eqb k key then Some v else dict_get d' key
  end.

(** [d[key] = v]: an existing key keeps its position, a new one goes last. *)
Fixpoint dict_set (d : dict) (key : string) (v : json) : dict :=
  match d with
  | [] => [(key, v)]
  | (k, w) :: d' =>
      if String.eqb k key then (k, v) :: d' else (k, w) :: dict_set d' key v
  end.

(** Python truthiness, [bool(v)]. *)
Definition truthy (v : json) : bool :=
  match v with
  | JNull => false
  | JBool b => b
  | JInt n => negb (n =? 0)%Z
  | JFloat x => negb (Qeq_bool x 0)
  | JStr s => negb (String.eqb s "")
  | JList l => match l with [] => false | _ => true end
  | JObj kvs => match kvs with [] => false | _ => true end
  end.

(** ** [rapidfuzz.distance.Levenshtein.distance]

    The classic edit distance with unit-cost insertion, deletion and
    substitution, by its defining recurrence. *)

Fixpoint levenshtein (s t : string) {struct s} : nat :=
  match s with
  | EmptyString => String.length t
  | String a s' =>
      (fix inner (t : string) : nat :=
         match t with
         | EmptyString => S (String.length s')
         | String b t' =>
             Nat.min (S (levenshtein s' t))
               (Nat.min (S (inner t'))
                  ((if Ascii.eqb a b then 0 else 1) + levenshtein s' t'))%nat
         end) t
  end.

(** ** [datetime] and [timedelta]

    A [datetime] carries its calendar fields and an optional UTC offset;
    [tzinfo = None] is a naive datetime.  A [timedelta] is a number of
    microseconds. *)

Record datetime : Type := mkDatetime {
  year : Z;
  month : Z;
  day : Z;
  hour : Z;
  minute : Z;
  second : Z;
  microsecond : Z;
  tzinfo : option Z  (* utcoffset, in microseconds *)
}.

Definition timedelta : Type := Z.

Definition timedelta_days (d : Z) : timedelta := d * 86400 * 1000000.

Definition is_leap (y : Z) : bool :=
  (y mod 4 =? 0) && (negb (y mod 100 =? 0) || (y mod 400 =? 0)).

Definition days_in_month (y m : Z) : Z :=
  if m =? 2 then (if is_leap y then 29 else 28)
  else if (m =? 4) || (m =? 6) || (m =? 9) || (m =? 11) then 30
  else 31.

Definition days_before_year (y : Z) : Z :=
  let y' := y - 1 in y' * 365 + y' / 4 - y' / 100 + y' / 400.

Fixpoint days_before_month_aux (y : Z) (m : nat) : Z :=
  match m with
  | O => 0
  | S k => days_before_month_aux y k + days_in_month y (Z.of_nat (S k))
  end.

Definition days_before_month (y m : Z) : Z :=
  days_before_month_aux y (Z.to_nat (m - 1)).

Definition toordinal (d : datetime) : Z :=
  days_before_year (year d) + days_before_month (year d) (month d) + day d.

(** Microseconds of the calendar fields since 0001-01-01T00:00:00, the
    offset not applied. *)
Definition wall_micros (d : datetime) : Z :=
  ((((toordinal d - 1) * 24 + hour d) * 60 + minute d) * 60 + second d)
    * 1000000 + microsecond d.

(** The instant an aware datetime denotes, in microseconds since
    0001-01-01T00:00:00+00:00. *)
Definition utc_micros (d : datetime) : option Z :=
  match tzinfo d with
  | Some off => Some (wall_micros d - off)
  | None => None
  end.

(** [now - d] where [now = datetime.now(timezone.utc)] read [now] (as a
    UTC instant): subtracting a naive datetime from an aware one raises
    [TypeError]. *)
Definition now_minus (now : Z) (d : datetime) : result timedelta :=
  match utc_micros d with
  | Some t => Ok (now - t)
  | None => Raise TypeError
  end.

(** *** [datetime.fromisoformat]

    The documented grammar
    [YYYY-MM-DD[*HH[:MM[:SS[.fff[fff]]]][+HH:MM[:SS[.ffffff]]]]], where [*]
    is any single character; the field ranges are those the [datetime]
    constructor enforces.  Anything else raises [ValueError].  (Recent
    Python versions accept further ISO 8601 forms; the inputs evaluated
    below are read the same way by all of them.) *)

Definition digit (c : ascii) : option Z :=
  let n := nat_of_ascii c in
  if ((48 <=? n) && (n <=? 57))%nat then Some (Z.of_nat (n - 48)) else None.

Fixpoint parse_digits (k : nat) (s : string) (acc : Z) : option (Z * string) :=
  match k with
  | O => Some (acc, s)
  | S k' =>
      match s with
      | EmptyString => None
      | String c s' =>
          match digit c with
          | Some d => parse_digits k' s' (acc * 10 + d)
          | None => None
          end
      end
  end.

Definition expect (c : ascii) (s : string) : option string :=
  match s with
  | String c' s' => if Ascii.eqb c c' then Some s' else None
  | EmptyString => None
  end.

(** [.fff[fff]] for the time of day, [.ffffff] for an offset. *)
Definition parse_fraction (allow3 : bool) (s : string) : option Z :=
  match String.length s with
  | 3%nat =>
      if allow3 then
        match parse_digits 3 s 0 with
        | Some (v, _) => Some (v * 1000)
        | None => None
        end
      else None
  | 6%nat =>
      match parse_digits 6 s 0 with
      | Some (v, _) => Some v
      | None => None
      end
  | _ => None
  end.

(** [HH[:MM[:SS[.fff[fff]]]]] when [need_mm] is [false],
    [HH:MM[:SS[.ffffff]]] when it is [true]; the whole of [s] is read. *)
Definition parse_hh_mm_ss_ff (need_mm : bool) (s : string)
    : option (Z * Z * Z * Z) :=
  match parse_digits 2 s 0 with
  | None => None
  | Some (hh, EmptyString) => if need_mm then None else Some (hh, 0, 0, 0)
  | Some (hh, s1) =>
      match expect ":" s1 with
      | None => None
      | Some s2 =>
          match parse_digits 2 s2 0 with
          | None => None
          | Some (mm, EmptyString) => Some (hh, mm, 0, 0)
          | Some (mm, s3) =>
              match expect ":" s3 with
              | None => None
              | Some s4 =>
                  match parse_digits 2 s4 0 with
                  | None => None
                  | Some (ss, EmptyString) => Some (hh, mm, ss, 0)
                  | Some (ss, s5) =>
                      match expect "." s5 with
                      | None => None
                      | Some s6 =>
                          match parse_fraction (negb need_mm) s6 with
                          | Some us => Some (hh, mm, ss, us)
                          | None => None
                          end
                      end
                  end
              end
          end
      end
  end.

(** Splits a time string at its first ['+'] or ['-']. *)
Fixpoint split_offset (s : string) : string * option (Z * string) :=
  match s with
  | EmptyString => (EmptyString, None)
  | String c s' =>
      if Ascii.eqb c "+" then (EmptyString, Some (1, s'))
      else if Ascii.eqb c "-" then (EmptyString, Some (-1, s'))
      else let (t, o) := split_offset s' in (String c t, o)
  end.

Definition parse_offset (o : option (Z * string)) : option (option Z) :=
  match o with
  | None => Some None
  | Some (sign, s) =>
      match parse_hh_mm_ss_ff true s with
      | Some (hh, mm, ss, us) =>
          Some (Some (sign * (((hh * 3600 + mm * 60 + ss) * 1000000) + us)))
      | None => None
      end
  end.

Definition parse_isoformat (s : string) : option datetime :=
  match parse_digits 4 s 0 with
  | None => None
  | Some (y, s1) =>
  match expect "-" s1 with
  | None => None
  | Some s2 =>
  match parse_digits 2 s2 0 with
  | None => None
  | Some (m, s3) =>
  match expect "-" s3 with
  | None => None
  | Some s4 =>
  match parse_digits 2 s4 0 with
  | None => None
  | Some (d, EmptyString) => Some (mkDatetime y m d 0 0 0 0 None)
  | Some (d, String _ tstr) =>
      let (t, o) := split_offset tstr in
      match parse_hh_mm_ss_ff false t, parse_offset o with
      | Some (hh, mm, ss, us), Some tz => Some (mkDatetime y m d hh mm ss us tz)
      | _, _ => None
      end
  end end end end end.

(** The range checks of the [datetime] and [timezone] constructors. *)
Definition datetime_in_range (d : datetime) : bool :=
  (1 <=? year d) && (year d <=? 9999)
  && (1 <=? month d) && (month d <=? 12)
  && (1 <=? day d) && (day d <=? days_in_month (year d) (month d))
  && (hour d <=? 23) && (minute d <=? 59) && (second d <=? 59)
  && match tzinfo d with
     | None => true
     | Some off => (- timedelta_days 1 <? off) && (off <? timedelta_days 1)
     end.

Definition fromisoformat (s : string) : result datetime :=
  match parse_isoformat s with
  | Some d => if datetime_in_range d then Ok d else Raise ValueError
  | None => Raise ValueError
  end.

(** [text.replace("Z", "+00:00")]. *)
Fixpoint replace_Z (s : string) : string :=
  match s with
  | EmptyString => EmptyString
  | String c s' =>
      if Ascii.eqb c "Z" then "+00:00" ++ replace_Z s'
      else String c (replace_Z s')
  end.

(** ** models.py *)

Inductive Ecosystem : Type := pypi | npm.

Definition Ecosystem_str (e : Ecosystem) : string :=
  match e with
  | pypi => "pypi"
  | npm => "npm"
  end.

(** [str.lower()] on ASCII text, which package names are taken to be:
    the letters A-Z go to a-z and every other ASCII character stays. *)
Definition lower_ascii (c : ascii) : ascii :=
  let n := nat_of_ascii c in
  if ((65 <=? n) && (n <=? 90))%nat then ascii_of_nat (n + 32) else c.

Fixpoint lower (s : string) : string :=
  match s with
  | EmptyString => EmptyString
  | String c s' => String (lower_ascii c) (lower s')
  end.

Record DependencySpec : Type := mkDependencySpec {
  dep_name : string;
  dep_version : option string;
  dep_ecosystem : Ecosystem;
  dep_source_path : string
}.

Definition slug (spec : DependencySpec) : string :=
  Ecosystem_str (dep_ecosystem spec) ++ ":" ++ lower (dep_name spec).

Record PackageMetadata : Type := mkPackageMetadata {
  meta_name : string;
  meta_ecosystem : Ecosystem;
  latest_version : option string;
  latest_published : option datetime;
  first_published : option datetime;
  maintainers : list string;
  weekly_downloads : option Z;
  homepage : option string;
  repository_url : option string;
  raw : dict
}.

Inductive Category : Type :=
| typosquat
| fresh_release
| stale_package
| metadata_gaps
| popularity
| maintainers_cat.

Definition Category_eqb (c1 c2 : Category) : bool :=
  match c1, c2 with
  | typosquat, typosquat
  | fresh_release, fresh_release
  | stale_package, stale_package
  | metadata_gaps, metadata_gaps
  | popularity, popularity
  | maintainers_cat, maintainers_cat => true
  | _, _ => false
  end.

Record RiskSignal : Type := mkRiskSignal {
  reason : string;
  sig_score : Z;
  category : Category
}.

(** The field constraint [Field(ge=0, le=100)] on [RiskSignal.score]. *)
Definition RiskSignal_valid (s : RiskSignal) : Prop :=
  0 <= sig_score s <= 100.

Record PackageAssessment : Type := mkPackageAssessment {
  dependency : DependencySpec;
  metadata : option PackageMetadata;
  signals : list RiskSignal;
  score : Z
}.

(** [PackageAssessment(dependency=spec, metadata=metadata)]: the signal
    list and the score take their defaults. *)
Definition PackageAssessment_new (spec : DependencySpec)
    (md : option PackageMetadata) : PackageAssessment :=
  {| dependency := spec; metadata := md; signals := []; score := 0 |}.

Definition add_signal (self : PackageAssessment) (signal : RiskSignal)
    : PackageAssessment :=
  {| dependency := dependency self;
     metadata := metadata self;
     signals := signals self ++ [signal];
     score := Z.min 100 (score self + sig_score signal) |}.

(** ** scoring.py *)

Definition RECENT_THRESHOLD_DAYS : Z := 45.
Definition STALE_THRESHOLD_DAYS : Z := 365.
Definition LOW_DOWNLOADS_THRESHOLD : Z := 500.

Definition str_of_nat (n : nat) : string :=
  NilEmpty.string_of_uint (Nat.to_uint n).

Definition str_of_Z (n : Z) : string :=
  NilEmpty.string_of_int (Z.to_int n).

Definition typosquat_signal (name : string) (distance : nat) (top : string)
    : RiskSignal :=
  {| reason := "Name '" ++ name ++ "' is " ++ str_of_nat distance
               ++ " edits away from popular package '" ++ top ++ "'.";
     sig_score := 50;
     category := typosquat |}.

Definition metadata_gaps_signal : RiskSignal :=
  {| reason := "Package metadata unavailable; registry lookup failed.";
     sig_score := 40;
     category := metadata_gaps |}.

Definition fresh_release_signal : RiskSignal :=
  {| reason := "Package is newly published; consider additional vetting.";
     sig_score := 25;
     category := fresh_release |}.

Definition stale_package_signal : RiskSignal :=
  {| reason := "Latest release is over a year old; project may be unmaintained.";
     sig_score := 20;
     category := stale_package |}.

Definition popularity_signal (downloads : Z) : RiskSignal :=
  {| reason := "Weekly downloads are low (" ++ str_of_Z downloads
               ++ "); limited community adoption.";
     sig_score := 15;
     category := popularity |}.

Definition maintainers_signal : RiskSignal :=
  {| reason := "Single maintainer detected; project is susceptible to account compromise.";
     sig_score := 20;
     category := maintainers_cat |}.

Section Scoring.

(** The bundled resource [data/top_packages.json], loaded once into
    [osint._top_packages]: for each ecosystem name an ordered list of
    well-known package names. *)
Variable _top_packages : list (string * list string).

Fixpoint top_packages_get (d : list (string * list string))
    (key : string) : list string :=
  match d with
  | [] => []
  | (k, v) :: d' => if String.eqb k key then v else top_packages_get d' key
  end.

(** [osint.get_top_packages]: [_top_packages.get(ecosystem, [])]. *)
Definition get_top_packages (ecosystem : Ecosystem) : list string :=
  top_packages_get _top_packages (Ecosystem_str ecosystem).

(** The [for top in top_packages] loop of [_evaluate_typosquat]. *)
Fixpoint typosquat_scan (name : string) (top_packages : list string)
    (assessment : PackageAssessment) : PackageAssessment :=
  match top_packages with
  | [] => assessment
  | top :: rest =>
      let distance := levenshtein name top in
      if (distance =? 0)%nat then assessment
      else if (distance <=? 2)%nat then
        add_signal assessment (typosquat_signal name distance top)
      else typosquat_scan name rest assessment
  end.

Definition _evaluate_typosquat (spec : DependencySpec)
    (assessment : PackageAssessment) : PackageAssessment :=
  typosquat_scan (dep_name spec) (get_top_packages (dep_ecosystem spec))
    assessment.

(** [now] is what [datetime.now(timezone.utc)] reads when the evaluator
    runs, as microseconds since 0001-01-01T00:00:00+00:00. *)
Definition _evaluate_recency (now : Z) (md : PackageMetadata)
    (assessment : PackageAssessment) : result PackageAssessment :=
  match first_published md with
  | None => Ok assessment
  | Some published =>
      age <- now_minus now published ;;
      if age <=? timedelta_days RECENT_THRESHOLD_DAYS
      then Ok (add_signal assessment fresh_release_signal)
      else Ok assessment
  end.

Definition _evaluate_staleness (now : Z) (md : PackageMetadata)
    (assessment : PackageAssessment) : result PackageAssessment :=
  match latest_published md with
  | None => Ok assessment
  | Some published =>
      age <- now_minus now published ;;
      if age >=? timedelta_days STALE_THRESHOLD_DAYS
      then Ok (add_signal assessment stale_package_signal)
      else Ok assessment
  end.

Definition _evaluate_popularity (md : PackageMetadata)
    (assessment : PackageAssessment) : PackageAssessment :=
  match weekly_downloads md with
  | None => assessment
  | Some downloads =>
      if downloads <? LOW_DOWNLOADS_THRESHOLD
      then add_signal assessment (popularity_signal downloads)
      else assessment
  end.

(** [metadata.maintainers or []] is the list itself. *)
Definition _evaluate_maintainers (md : PackageMetadata)
    (assessment : PackageAssessment) : PackageAssessment :=
  if (List.length (maintainers md) <=? 1)%nat
  then add_signal assessment maintainers_signal
  else assessment.

(** [now_recency] and [now_staleness] are the two clock readings, taken
    by [_evaluate_recency] and [_evaluate_staleness] in that order. *)
Definition assess_dependency (now_recency now_staleness : Z)
    (spec : DependencySpec) (md : option PackageMetadata)
    : result PackageAssessment :=
  let assessment := PackageAssessment_new spec md in
  match md with
  | None => Ok (add_signal assessment metadata_gaps_signal)
  | Some m =>
      let a1 := _evaluate_typosquat spec assessment in
      a2 <- _evaluate_recency now_recency m a1 ;;
      a3 <- _evaluate_staleness now_staleness m a2 ;;
      let a4 := _evaluate_popularity m a3 in
      Ok (_evaluate_maintainers m a4)
  end.

End Scoring.

(** ** osint.py *)

(** *** Operations of Python on values decoded from JSON *)

(** [v.get(key, default)]: only a [dict] has the method. *)
Definition py_get (v : json) (key : string) (default : json) : result json :=
  match v with
  | JObj d =>
      match dict_get d key with
      | Some x => Ok x
      | None => Ok default
      end
  | _ => Raise AttributeError
  end.

(** [v.items()]. *)
Definition py_items (v : json) : result (list (string * json)) :=
  match v with
  | JObj d => Ok d
  | _ => Raise AttributeError
  end.

Fixpoint chars (s : string) : list json :=
  match s with
  | EmptyString => []
  | String c s' => JStr (String c EmptyString) :: chars s'
  end.

(** [for x in v]: a list yields its elements, a string its characters, a
    dict its keys; nothing else is iterable. *)
Definition py_iter (v : json) : result (list json) :=
  match v with
  | JList l => Ok l
  | JStr s => Ok (chars s)
  | JObj d => Ok (map (fun kv => JStr (fst kv)) d)
  | _ => Raise TypeError
  end.

(** The value of [v] as an operand of [-] with a float: [bool] is a
    subclass of [int]. *)
Definition py_number (v : json) : result Q :=
  match v with
  | JInt n => Ok (inject_Z n)
  | JFloat x => Ok x
  | JBool b => Ok (inject_Z (if b then 1 else 0))
  | _ => Raise TypeError
  end.

(** [x or default]. *)
Definition py_or (x default : json) : json :=
  if truthy x then x else default.

Fixpoint foldM {A B : Type} (f : A -> B -> result A) (l : list B) (a : A)
    : result A :=
  match l with
  | [] => Ok a
  | b :: l' => a' <- f a b ;; foldM f l' a'
  end.

Definition CACHE_TTL_SECONDS : Q := inject_Z (6 * 60 * 60).

(** [a > b] on floats. *)
Definition Qgt_bool (a b : Q) : bool := negb (Qle_bool a b).

(** *** [MetadataCache]

    What [read_text] and [json.loads] make of [cache_file]: no file
    ([FileNotFoundError]), a text [json.loads] rejects
    ([json.JSONDecodeError]), a JSON document, bytes that are not UTF-8
    ([UnicodeDecodeError]), or a file that cannot be read (an [OSError]
    other than [FileNotFoundError]: [PermissionError],
    [IsADirectoryError]). *)
Inductive file_state : Type :=
| FileMissing
| FileCorrupt
| FileJson (j : json)
| FileUndecodable
| FileUnreadable.

Record MetadataCache : Type := mkMetadataCache {
  payload : json;
  cache_file : file_state
}.

(** The cache with an empty payload, over the store [f]. *)
Definition empty_cache (f : file_state) : MetadataCache :=
  {| payload := JObj []; cache_file := f |}.

(** The cache whose payload is the document [j] of the store. *)
Definition loaded_cache (j : json) : MetadataCache :=
  {| payload := j; cache_file := FileJson j |}.

(** The constructor: of what the [try] block can raise, only
    [FileNotFoundError] and [json.JSONDecodeError] are caught. *)
Definition MetadataCache_init (f : file_state) : result MetadataCache :=
  match f with
  | FileMissing => Ok (empty_cache f)
  | FileCorrupt => Ok (empty_cache f)
  | FileJson j => Ok (loaded_cache j)
  | FileUndecodable => Raise UnicodeDecodeError
  | FileUnreadable => Raise OSError
  end.

(** [now] is the reading of [time.time()], in seconds; the float
    subtraction [now - t] is taken as exact.  A method returns its result
    together with the object as it leaves it; Python's [None] is [JNull]. *)
Definition MetadataCache_get (self : MetadataCache) (now : Q) (key : string)
    : result json * MetadataCache :=
  (entry <- py_get (payload self) key JNull ;;
   if negb (truthy entry) then Ok JNull
   else
     ts <- py_get entry "timestamp" (JInt 0) ;;
     t <- py_number ts ;;
     if Qgt_bool (now - t) CACHE_TTL_SECONDS then Ok JNull
     else py_get entry "data" JNull,
   self).

Definition cache_entry (now : Q) (data : json) : json :=
  JObj [("timestamp", JFloat now); ("data", data)].

(** [self.payload[key] = ...] needs a [dict]; the store is then rewritten
    from the whole payload. *)
Definition MetadataCache_set (self : MetadataCache) (now : Q) (key : string)
    (data : json) : result unit * MetadataCache :=
  match payload self with
  | JObj d =>
      let p := JObj (dict_set d key (cache_entry now data)) in
      (Ok tt, {| payload := p; cache_file := FileJson p |})
  | _ => (Raise TypeError, self)
  end.

(** *** [_parse_datetime] *)

Definition _parse_datetime (text : json) : result (option datetime) :=
  if negb (truthy text) then Ok None
  else
    match text with
    | JStr s =>
        match fromisoformat (replace_Z s) with
        | Ok d => Ok (Some d)
        | Raise ValueError => Ok None
        | Raise e => Raise e
        end
    | _ => Raise AttributeError
    end.

(** *** The registry client *)

(** What [_client.get(url)] does: it raises a subclass of
    [httpx.HTTPError] (connection refused, timeout, ...), or returns a
    response with a status code and a body; [resp_json] is what
    [resp.json()] decodes the body to, [None] when the body is not JSON. *)
Inductive http_reply : Type :=
| TransportFailure
| Response (status_code : Z) (resp_json : option json).

Definition response_json (body : option json) : result json :=
  match body with
  | Some j => Ok j
  | None => Raise JSONDecodeError
  end.

Section Registry.

Variable http_get : string -> http_reply.

(** Python's [<] and [>] on two values that are not both strings, and
    [str(v)] of a value that is not a string. *)
Variable py_lt : json -> json -> result bool.
Variable py_gt : json -> json -> result bool.
Variable py_str : json -> string.

(** pydantic's validation of an [int] field, its validation of the
    cached mapping unpacked into the [PackageMetadata] constructor, and
    [model_dump(mode="json")]. *)
Variable pydantic_int : json -> option Z.
Variable PackageMetadata_validate : dict -> result PackageMetadata.
Variable model_dump : PackageMetadata -> json.

Definition lt (a b : json) : result bool :=
  match a, b with
  | JStr x, JStr y => Ok (String.ltb x y)
  | _, _ => py_lt a b
  end.

Definition gt (a b : json) : result bool :=
  match a, b with
  | JStr x, JStr y => Ok (String.ltb y x)
  | _, _ => py_gt a b
  end.

(** [max(l)] of a non-empty list. *)
Definition py_max (first : json) (rest : list json) : result json :=
  foldM (fun m item => b <- gt item m ;; Ok (if b then item else m))
    rest first.

(** The field types [str | None], [list[str]] and [int | None]. *)
Definition validate_opt_str (v : json) : option (option string) :=
  match v with
  | JNull => Some None
  | JStr s => Some (Some s)
  | _ => None
  end.

Fixpoint validate_str_list (l : list json) : option (list string) :=
  match l with
  | [] => Some []
  | JStr s :: l' =>
      match validate_str_list l' with
      | Some r => Some (s :: r)
      | None => None
      end
  | _ :: _ => None
  end.

Definition validate_opt_int (v : json) : option (option Z) :=
  match v with
  | JNull => Some None
  | _ =>
      match pydantic_int v with
      | Some n => Some (Some n)
      | None => None
      end
  end.

(** [PackageMetadata(name=..., ...)] on values taken from a payload. *)
Definition PackageMetadata_init (name : string) (ecosystem : Ecosystem)
    (latest_version : json) (latest_published first_published : option datetime)
    (maintainers : list json) (weekly_downloads homepage repository_url : json)
    (raw : dict) : result PackageMetadata :=
  match validate_opt_str latest_version, validate_str_list maintainers,
        validate_opt_int weekly_downloads, validate_opt_str homepage,
        validate_opt_str repository_url with
  | Some v, Some ms, Some dl, Some hp, Some repo =>
      Ok (mkPackageMetadata name ecosystem v latest_published
            first_published ms dl hp repo raw)
  | _, _, _, _, _ => Raise ValidationError
  end.

(** The inner loop body of [_fetch_pypi]: the state is
    [(release_times, first_release)]. *)
Definition pypi_file_step (st : list json * option json) (file_entry : json)
    : result (list json * option json) :=
  upload_time <- py_get file_entry "upload_time_iso_8601" JNull ;;
  if truthy upload_time then
    let release_times := (fst st ++ [upload_time])%list in
    match snd st with
    | None => Ok (release_times, Some upload_time)
    | Some first_release =>
        b <- lt upload_time first_release ;;
        Ok (release_times, Some (if b then upload_time else first_release))
    end
  else Ok st.

Definition pypi_release_step (st : list json * option json)
    (release : string * json) : result (list json * option json) :=
  files <- py_iter (snd release) ;;
  foldM pypi_file_step files st.

Definition opt_json (o : option json) : json :=
  match o with
  | Some v => v
  | None => JNull
  end.

Definition pypi_maintainer (m : json) : json :=
  match m with
  | JObj d => opt_json (dict_get d "name")
  | JStr s => JStr s
  | _ => JStr (py_str m)
  end.

Definition _fetch_pypi (spec : DependencySpec)
    : result (option PackageMetadata) :=
  let url := "https://pypi.org/pypi/" ++ dep_name spec ++ "/json" in
  match http_get url with
  | TransportFailure => Raise HTTPError
  | Response status_code body =>
      if negb (status_code =? 200)%Z then Ok None
      else
        payload <- response_json body ;;
        info <- py_get payload "info" (JObj []) ;;
        releases <- py_get payload "releases" (JObj []) ;;
        latest_version <- py_get info "version" JNull ;;
        items <- py_items releases ;;
        st <- foldM pypi_release_step items ([], None) ;;
        latest_published <-
          match fst st with
          | [] => Ok JNull
          | t :: ts => py_max t ts
          end ;;
        ms <- py_get info "maintainers" JNull ;;
        ms <- py_iter (py_or ms (JList [])) ;;
        let maintainers := map pypi_maintainer ms in
        lp <- _parse_datetime latest_published ;;
        fp <- _parse_datetime (opt_json (snd st)) ;;
        downloads <- py_get payload "last_month_downloads" JNull ;;
        home_page <- py_get info "home_page" JNull ;;
        project_url <- py_get info "project_url" JNull ;;
        raw <- py_items payload ;;
        md <- PackageMetadata_init (dep_name spec) pypi latest_version lp fp
                (filter truthy maintainers) downloads home_page project_url
                raw ;;
        Ok (Some md)
  end.

Definition _fetch_npm_downloads (package : string) : result json :=
  let url := "https://api.npmjs.org/downloads/point/last-week/" ++ package in
  match http_get url with
  | TransportFailure => Ok JNull
  | Response status_code body =>
      if negb (status_code =? 200)%Z then Ok JNull
      else
        data <- response_json body ;;
        py_get data "downloads" JNull
  end.

(** The loop body over [time_section.items()]: the state is
    [(latest_published, first_published)], both [None] at first. *)
Definition npm_time_step (st : json * json) (item : string * json)
    : result (json * json) :=
  let version := fst item in
  let published := snd item in
  if String.eqb version "created" || String.eqb version "modified"
  then Ok st
  else
    lp <- (if negb (truthy (fst st)) then Ok published
           else b <- gt published (fst st) ;;
                Ok (if b then published else fst st)) ;;
    fp <- (if negb (truthy (snd st)) then Ok published
           else b <- lt published (snd st) ;;
                Ok (if b then published else snd st)) ;;
    Ok (lp, fp).

Definition npm_maintainer (m : json) : list json :=
  match m with
  | JObj d =>
      let maint_name := opt_json (dict_get d "name") in
      if truthy maint_name then [maint_name] else []
  | JStr s => [JStr s]
  | _ => []
  end.

(** [versions.get(latest, {})]: a list or a dict is not hashable. *)
Definition npm_version_payload (versions latest : json) : result json :=
  match versions with
  | JObj d =>
      match latest with
      | JStr k => Ok (match dict_get d k with Some v => v | None => JObj [] end)
      | JList _ | JObj _ => Raise TypeError
      | _ => Ok (JObj [])
      end
  | _ => Raise AttributeError
  end.

Definition _fetch_npm (spec : DependencySpec)
    : result (option PackageMetadata) :=
  let url := "https://registry.npmjs.org/" ++ dep_name spec in
  match http_get url with
  | TransportFailure => Raise HTTPError
  | Response status_code body =>
      if negb (status_code =? 200)%Z then Ok None
      else
        payload <- response_json body ;;
        time_section <- py_get payload "time" (JObj []) ;;
        versions <- py_get payload "versions" (JObj []) ;;
        tags <- py_get payload "dist-tags" (JObj []) ;;
        latest <- py_get tags "latest" JNull ;;
        items <- py_items time_section ;;
        st <- foldM npm_time_step items (JNull, JNull) ;;
        ms <- py_get payload "maintainers" JNull ;;
        ms <- py_iter (py_or ms (JList [])) ;;
        let maintainers := flat_map npm_maintainer ms in
        downloads <- _fetch_npm_downloads (dep_name spec) ;;
        version_payload <- npm_version_payload versions latest ;;
        homepage <- py_get version_payload "homepage" JNull ;;
        repo <- py_get version_payload "repository" JNull ;;
        let repo_url :=
          match repo with
          | JObj d => opt_json (dict_get d "url")
          | JStr s => JStr s
          | _ => JNull
          end in
        lp <- _parse_datetime (fst st) ;;
        fp <- _parse_datetime (snd st) ;;
        raw <- py_items payload ;;
        md <- PackageMetadata_init (dep_name spec) npm latest lp fp
                maintainers downloads homepage repo_url raw ;;
        Ok (Some md)
  end.

(** [now_get] and [now_set] are the readings of [time.time()] inside
    [_cache.get] and [_cache.set].  The third branch of the dispatch on
    the ecosystem cannot be reached: the field admits two values. *)
Definition fetch_metadata (now_get now_set : Q) (spec : DependencySpec)
    (_cache : MetadataCache)
    : result (option PackageMetadata) * MetadataCache :=
  let key := slug spec in
  match MetadataCache_get _cache now_get key with
  | (Raise e, c) => (Raise e, c)
  | (Ok cached, c) =>
      if truthy cached then
        match cached with
        | JObj d => (md <- PackageMetadata_validate d ;; Ok (Some md), c)
        | _ => (Raise TypeError, c)
        end
      else
        let fetched :=
          match dep_ecosystem spec with
          | pypi => _fetch_pypi spec
          | npm => _fetch_npm spec
          end in
        match fetched with
        | Raise HTTPError => (Ok None, c)
        | Raise e => (Raise e, c)
        | Ok None => (Ok None, c)
        | Ok (Some md) =>
            match MetadataCache_set c now_set key (model_dump md) with
            | (Ok _, c') => (Ok (Some md), c')
            | (Raise e, c') => (Raise e, c')
            end
        end
  end.

End Registry.

(** ** cli.py: the analysis loop

    [for slug, assessment in assessments.items()]: each dependency is
    looked up, then scored; nothing in the loop catches an exception.
    [readings] are the clock readings one iteration takes. *)

Record readings : Type := mkReadings {
  at_cache_get : Q;
  at_cache_set : Q;
  at_recency : Z;
  at_staleness : Z
}.

Section Cli.

Variable _top_packages : list (string * list string).
Variable http_get : string -> http_reply.
Variable py_lt : json -> json -> result bool.
Variable py_gt : json -> json -> result bool.
Variable py_str : json -> string.
Variable pydantic_int : json -> option Z.
Variable PackageMetadata_validate : dict -> result PackageMetadata.
Variable model_dump : PackageMetadata -> json.

Fixpoint analyse (deps : list (DependencySpec * readings))
    (_cache : MetadataCache)
    : result (list PackageAssessment) * MetadataCache :=
  match deps with
  | [] => (Ok [], _cache)
  | (spec, r) :: rest =>
      match fetch_metadata http_get py_lt py_gt py_str pydantic_int
              PackageMetadata_validate model_dump
              (at_cache_get r) (at_cache_set r) spec _cache with
      | (Raise e, c) => (Raise e, c)
      | (Ok md, c) =>
          match assess_dependency _top_packages (at_recency r)
                  (at_staleness r) spec md with
          | Raise e => (Raise e, c)
          | Ok enriched =>
              match analyse rest c with
              | (Ok l, c') => (Ok (enriched :: l), c')
              | (Raise e, c') => (Raise e, c')
              end
          end
      end
  end.

End Cli.

(** ** Vocabulary of the properties *)

Definition sum_severity (l : list RiskSignal) : Z :=
  fold_right (fun s acc => sig_score s + acc) 0 l.

(** The assessments that can be built: a new one, then [add_signal] with
    signals that passed validation. *)
Inductive built : PackageAssessment -> Prop :=
| built_new (spec : DependencySpec) (md : option PackageMetadata) :
    built (PackageAssessment_new spec md)
| built_add (a : PackageAssessment) (s : RiskSignal) :
    built a -> RiskSignal_valid s -> built (add_signal a s).

Definition add_signals (a : PackageAssessment) (l : list RiskSignal)
    : PackageAssessment :=
  fold_left add_signal l a.

Definition has_category (c : Category) (s : RiskSignal) : bool :=
  Category_eqb (category s) c.

(** The signals of a category, in order. *)
Definition of_category (c : Category) (l : list RiskSignal) : list RiskSignal :=
  filter (has_category c) l.

(** A timestamp is usable by the scorer when it is absent or aware. *)
Definition aware (d : option datetime) : Prop :=
  match d with
  | Some dt => tzinfo dt <> None
  | None => True
  end.

(** [now - d <= bound] and [now - d >= bound], for a present, aware [d]. *)
Definition age_at_most (now : Z) (d : option datetime) (bound : timedelta) : Prop :=
  exists dt t, d = Some dt /\ utc_micros dt = Some t /\ now - t <= bound.

Definition age_at_least (now : Z) (d : option datetime) (bound : timedelta) : Prop :=
  exists dt t, d = Some dt /\ utc_micros dt = Some t /\ now - t >= bound.

(** The timestamps of a metadata record, where present, are aware. *)
Definition timestamps_aware (md : option PackageMetadata) : Prop :=
  match md with
  | Some m => aware (first_published m) /\ aware (latest_published m)
  | None => True
  end.

(** What each evaluator may append, and when. *)

Definition typosquat_emitted (name : string) (l : list RiskSignal) : Prop :=
  l = [] \/ exists d top, l = [typosquat_signal name d top].

Definition recency_emitted (now : Z) (m : PackageMetadata)
    (l : list RiskSignal) : Prop :=
  (l = [fresh_release_signal]
   /\ age_at_most now (first_published m) (timedelta_days 45))
  \/ (l = [] /\ ~ age_at_most now (first_published m) (timedelta_days 45)).

Definition staleness_emitted (now : Z) (m : PackageMetadata)
    (l : list RiskSignal) : Prop :=
  (l = [stale_package_signal]
   /\ age_at_least now (latest_published m) (timedelta_days 365))
  \/ (l = [] /\ ~ age_at_least now (latest_published m) (timedelta_days 365)).

Definition popularity_emitted (m : PackageMetadata) (l : list RiskSignal)
    : Prop :=
  (exists n, l = [popularity_signal n] /\ weekly_downloads m = Some n /\ n < 500)
  \/ (l = [] /\ forall n, weekly_downloads m = Some n -> 500 <= n).

Definition maintainers_emitted (m : PackageMetadata) (l : list RiskSignal)
    : Prop :=
  (l = [maintainers_signal] /\ (List.length (maintainers m) <= 1)%nat)
  \/ (l = [] /\ (1 < List.length (maintainers m))%nat).

(** The document [_fetch_pypi] or [_fetch_npm] asks for. *)
Definition registry_url (spec : DependencySpec) : string :=
  (match dep_ecosystem spec with
   | pypi => "https://pypi.org/pypi/" ++ dep_name spec ++ "/json"
   | npm => "https://registry.npmjs.org/" ++ dep_name spec
   end)%string.

(** A store holding one entry, written at time 1000, for [pypi:reqeusts]. *)
Definition old_entry_store : json :=
  JObj [("pypi:reqeusts",
         JObj [("timestamp", JFloat (inject_Z 1000));
               ("data", JObj [("name", JStr "reqeusts")]%list)]%list)]%list.

(** A store whose entry for [pypi:reqeusts] has no timestamp. *)
Definition undated_entry_store : json :=
  JObj [("pypi:reqeusts",
         JObj [("data", JObj [("name", JStr "reqeusts")]%list)]%list)]%list.

(** A store whose entry for [pypi:reqeusts] is fresh at time 1700000000
    and holds an empty record. *)
Definition empty_record_store : json :=
  JObj [("pypi:reqeusts",
         JObj [("timestamp", JFloat (inject_Z 1700000000));
               ("data", JObj []%list)]%list)]%list.

(** Stand-ins for the library calls a sample run does not reach, and a
    serialisation that keeps the name. *)
Definition lt_unused (a b : json) : result bool := Raise TypeError.
Definition str_unused (v : json) : string := "".
Definition int_unused (v : json) : option Z := None.
Definition validate_unused (d : dict) : result PackageMetadata :=
  Raise ValidationError.
Definition dump_name (m : PackageMetadata) : json :=
  JObj [("name", JStr (meta_name m))]%list.

(** Sample inputs. *)

Definition sample_corpus : list (string * list string) :=
  [("pypi", ["requests"; "numpy"]%list); ("npm", ["request"; "requests"]%list)]%list.

Definition sample_spec : DependencySpec :=
  mkDependencySpec "reqeusts" (Some "1.0.0") pypi "requirements.txt".

Definition requests_spec : DependencySpec :=
  mkDependencySpec "requests" None npm "package.json".

(** The npm list of [sample_corpus] with its two names in the other order. *)
Definition exact_first_corpus : list (string * list string) :=
  [("npm", ["requests"; "request"]%list)]%list.

Definition utc_2024_01_01 : datetime := mkDatetime 2024 1 1 0 0 0 0 (Some 0).

Definition naive_2024_01_01 : datetime := mkDatetime 2024 1 1 0 0 0 0 None.

(** 2024-01-01T00:00:00+00:00 as an instant. *)
Definition t_2024_01_01 : Z := 63839664000000000.

(** A registry document with one release file, uploaded at [upload_time]. *)
Definition pypi_document (upload_time : string) : json :=
  JObj [("info", JObj [("version", JStr "1.0.0")]%list);
        ("releases",
         JObj [("1.0.0",
                JList [JObj [("upload_time_iso_8601", JStr upload_time)]%list]%list)]%list)]%list.

(** A registry that answers every request with that document. *)
Definition registry_serving (upload_time : string) (url : string) : http_reply :=
  Response 200 (Some (pypi_document upload_time)).

Definition broken_spec : DependencySpec :=
  mkDependencySpec "broken" None pypi "requirements.txt".

(** A registry that answers with status 200 and a body that is not JSON
    for the package [broken], and with a document for every other one. *)
Definition flaky_registry (url : string) : http_reply :=
  if String.eqb url "https://pypi.org/pypi/broken/json"
  then Response 200 None
  else Response 200 (Some (pypi_document "2024-01-01T00:00:00.000000Z")).

Definition sample_readings : readings :=
  mkReadings (inject_Z 1700000000) (inject_Z 1700000000)
    t_2024_01_01 t_2024_01_01.

Definition sample_metadata (first latest : option datetime) : PackageMetadata :=
  mkPackageMetadata "reqeusts" pypi (Some "1.0.0") latest first []%list None
    None None []%list.

(** ** parsers.py

    A manifest is a path, its file name, and what [json.loads] makes of
    its text ([None] when it raises [json.JSONDecodeError]). *)

Record manifest : Type := mkManifest {
  manifest_path : string;
  manifest_name : string;
  manifest_json : option json
}.

(** [DependencySpec(name=..., version=..., ...)]: the version field is
    [str | None]. *)
Definition DependencySpec_init (name : string) (version : json)
    (ecosystem : Ecosystem) (source_path : string) : result DependencySpec :=
  match version with
  | JNull => Ok (mkDependencySpec name None ecosystem source_path)
  | JStr v => Ok (mkDependencySpec name (Some v) ecosystem source_path)
  | _ => Raise ValidationError
  end.

Fixpoint mapM {A B : Type} (f : A -> result B) (l : list A) : result (list B) :=
  match l with
  | [] => Ok []
  | a :: l' => b <- f a ;; bs <- mapM f l' ;; Ok (b :: bs)
  end.

(** The dict display with two unpackings: the bindings of the first
    mapping, then those of the second assigned over them. *)
Definition dict_update (d1 d2 : dict) : dict :=
  fold_left (fun d kv => dict_set d (fst kv) (snd kv)) d2 d1.

Definition py_merge (a b : json) : result dict :=
  match a, b with
  | JObj d1, JObj d2 => Ok (dict_update d1 d2)
  | _, _ => Raise TypeError
  end.

Definition _parse_package_json (m : manifest) : result (list DependencySpec) :=
  payload <- response_json (manifest_json m) ;;
  dependencies <- py_get payload "dependencies" (JObj []) ;;
  dev_dependencies <- py_get payload "devDependencies" (JObj []) ;;
  merged <- py_merge dependencies dev_dependencies ;;
  mapM (fun kv => DependencySpec_init (lower (fst kv)) (snd kv) npm
                    (manifest_path m))
       merged.

(** [walk], on one binding [name: info] of a dependency map. *)
Fixpoint walk_entry (path : string) (name : string) (info : json)
    {struct info} : result (list DependencySpec) :=
  match info with
  | JObj kvs =>
      spec <- DependencySpec_init (lower name)
                (match dict_get kvs "version" with
                 | Some v => v
                 | None => JNull
                 end) npm path ;;
      nested <-
        (fix find (l : list (string * json)) : result (list DependencySpec) :=
           match l with
           | [] => Ok []
           | (k, v) :: l' =>
               if String.eqb k "dependencies" then
                 match v with
                 | JObj n =>
                     (fix walk (dep_map : list (string * json))
                        : result (list DependencySpec) :=
                        match dep_map with
                        | [] => Ok []
                        | (nm, inf) :: dep_map' =>
                            here <- walk_entry path nm inf ;;
                            there <- walk dep_map' ;;
                            Ok (here ++ there)%list
                        end) n
                 | _ => Ok []
                 end
               else find l'
           end) kvs ;;
      Ok (spec :: nested)
  | _ => Raise AttributeError
  end.

(** [walk(dep_map)]. *)
Fixpoint walk (path : string) (dep_map : dict) : result (list DependencySpec) :=
  match dep_map with
  | [] => Ok []
  | (name, info) :: dep_map' =>
      here <- walk_entry path name info ;;
      there <- walk path dep_map' ;;
      Ok (here ++ there)%list
  end.

Definition _parse_package_lock (m : manifest) : result (list DependencySpec) :=
  payload <- response_json (manifest_json m) ;;
  dependencies <- py_get payload "dependencies" (JObj []) ;;
  dep_map <- py_items dependencies ;;
  walk (manifest_path m) dep_map.

(** One section of a [Pipfile.lock]. *)
Definition pep_section (path : string) (payload : json)
    (specs : list DependencySpec) (section : string)
    : result (list DependencySpec) :=
  deps <- py_get payload section (JObj []) ;;
  match deps with
  | JObj d =>
      more <- mapM (fun kv =>
                      version <- py_get (snd kv) "version" JNull ;;
                      DependencySpec_init (lower (fst kv)) version pypi path)
                   d ;;
      Ok (specs ++ more)%list
  | _ => Ok specs
  end.

Definition _parse_pep_lock (m : manifest) : result (list DependencySpec) :=
  match manifest_json m with
  | None => Ok []
  | Some payload =>
      if String.eqb (manifest_name m) "Pipfile.lock" then
        foldM (pep_section (manifest_path m) payload) ["default"; "develop"] []
      else Ok []
  end.

Section Parsers.

(** [_parse_requirements]: the matching of [RE_REQUIREMENT] by [re] is not
    modelled. *)
Variable _parse_requirements : manifest -> result (list DependencySpec).


End Parsers.

(** ** cli.py: collecting the dependencies and rendering the table *)

(** [assessments.setdefault(spec.slug, PackageAssessment(dependency=spec))]
    over the parsed specs: the first spec of a slug stays. *)
Fixpoint collect (specs : list DependencySpec)
    (assessments : list (string * PackageAssessment))
    : list (string * PackageAssessment) :=
  match specs with
  | [] => assessments
  | spec :: rest =>
      collect rest
        (if existsb (fun kv => String.eqb (fst kv) (slug spec)) assessments
         then assessments
         else (assessments ++ [(slug spec, PackageAssessment_new spec None)])%list)
  end.

(** [sorted(assessments, key=lambda a: a.score, reverse=True)]: a stable
    sort, highest score first. *)
Fixpoint insert_by_score (x : PackageAssessment) (l : list PackageAssessment)
    : list PackageAssessment :=
  match l with
  | [] => [x]
  | y :: l' =>
      if score x <? score y then y :: insert_by_score x l' else x :: y :: l'
  end.

Definition sorted_by_score (l : list PackageAssessment) : list PackageAssessment :=
  fold_right insert_by_score [] l.

Definition newline : string := String (ascii_of_nat 10) EmptyString.

(** [spec.version or (assessment.metadata.latest_version if
    assessment.metadata else "-")], then [str] of it. *)
Definition display_version (a : PackageAssessment) : string :=
  let fallback :=
    match metadata a with
    | Some m =>
        match latest_version m with
        | Some v => v
        | None => "None"
        end
    | None => "-"
    end in
  match dep_version (dependency a) with
  | Some v => if String.eqb v "" then fallback else v
  | None => fallback
  end.

Definition display_reasons (a : PackageAssessment) : string :=
  let joined := String.concat newline (map reason (signals a)) in
  if String.eqb joined "" then "No obvious risks" else joined.

Definition table_row (a : PackageAssessment)
    : string * string * string * string :=
  (dep_name (dependency a) ++ " (" ++ Ecosystem_str (dep_ecosystem (dependency a))
     ++ ")",
   display_version a,
   str_of_Z (score a),
   display_reasons a).

(** The rows [_render_table] adds to the table; [None] when it prints
    that nothing was evaluated. *)
Definition _render_table (assessments : list PackageAssessment)
    : option (list (string * string * string * string)) :=
  match assessments with
  | [] => None
  | _ => Some (map table_row (sorted_by_score assessments))
  end.

(** ** More vocabulary *)

(** The order in which [assess_dependency] runs the evaluators. *)
Definition evaluation_order : list Category :=
  [typosquat; fresh_release; stale_package; popularity; maintainers_cat]%list.

Definition occurs (c : Category) (l : list RiskSignal) : bool :=
  existsb (has_category c) l.

(** The upload times [_fetch_pypi] keeps from a document's [releases]
    mapping: the truthy [upload_time_iso_8601] members of the files of
    every release, in document order. *)
Definition upload_time_of (file_entry : json) : json :=
  match file_entry with
  | JObj d => opt_json (dict_get d "upload_time_iso_8601")
  | _ => JNull
  end.

Definition release_files (release : string * json) : list json :=
  match py_iter (snd release) with
  | Ok files => files
  | Raise _ => []%list
  end.

Definition document_upload_times (releases : dict) : list json :=
  filter truthy (map upload_time_of (flat_map release_files releases)).

Definition all_strings (l : list json) : Prop :=
  forall t, In t l -> exists s, t = JStr s.

(** The keys the npm loop passes over. *)
Definition bookkeeping (item : string * json) : bool :=
  String.eqb (fst item) "created" || String.eqb (fst item) "modified".

(** The releases of a registry document, the later one listed first. *)
Definition two_releases : dict :=
  [("2.0.0",
    JList [JObj [("upload_time_iso_8601",
                  JStr "2024-01-01T00:00:00.000000Z")]%list]%list);
   ("1.0.0",
    JList [JObj [("upload_time_iso_8601",
                  JStr "2023-01-01T00:00:00.000000Z")]%list;
           JObj [("upload_time_iso_8601", JNull)]%list]%list)]%list.

Definition two_release_document : dict :=
  [("info", JObj [("version", JStr "2.0.0");
                  ("maintainers", JList [JStr "alice"; JStr ""]%list)]%list);
   ("releases", JObj two_releases)]%list.

(** The publication times the npm loop considers: the values of the
    [time] mapping under keys other than [created] and [modified]. *)
Definition version_times (time_section : dict) : list json :=
  map snd (filter (fun item => negb (bookkeeping item)) time_section).

Definition all_nonempty_strings (l : list json) : Prop :=
  forall t, In t l -> exists s, t = JStr s /\ s <> ""%string.

(** An npm document whose [created] entry is older than every version. *)
Definition npm_time_section : dict :=
  [("created", JStr "2010-01-01T00:00:00.000Z");
   ("1.0.0", JStr "2011-01-01T00:00:00.000Z");
   ("2.0.0", JStr "2012-01-01T00:00:00.000Z");
   ("modified", JStr "2020-01-01T00:00:00.000Z")]%list.

Definition npm_document : dict :=
  [("time", JObj npm_time_section);
   ("dist-tags", JObj [("latest", JStr "2.0.0")]%list)]%list.

(** A registry that serves [npm_document] and refuses every other request. *)
Definition npm_registry (url : string) : http_reply :=
  if String.eqb url "https://registry.npmjs.org/requests"
  then Response 200 (Some (JObj npm_document))
  else Response 503 None.

(** A [package.json] that lists [eslint] in both sections. *)
Definition package_json_document : dict :=
  [("dependencies",
    JObj [("React", JStr "^18.0.0"); ("eslint", JStr "^7.0.0")]%list);
   ("devDependencies", JObj [("eslint", JStr "^8.0.0")]%list)]%list.

Definition package_json_manifest : manifest :=
  mkManifest "app/package.json" "package.json" (Some (JObj package_json_document)).

(** A [package-lock.json] with a nested dependency. *)
Definition package_lock_manifest : manifest :=
  mkManifest "app/package-lock.json" "package-lock.json"
    (Some (JObj [("dependencies",
                  JObj [("Express",
                         JObj [("version", JStr "4.18.2");
                               ("dependencies",
                                JObj [("Debug",
                                       JObj [("version", JStr "2.6.9")]%list)]%list)]%list)]%list)]%list)).

(** What the JSON parsers promise about a spec they produce. *)
Definition normalised (ecosystem : Ecosystem) (path : string)
    (s : DependencySpec) : Prop :=
  dep_ecosystem s = ecosystem
  /\ dep_source_path s = path
  /\ lower (dep_name s) = dep_name s.

(** The smallest of the strings seen so far. *)
Definition least_of (ts : list json) (fr : option json) : Prop :=
  (ts = [] /\ fr = None)
  \/ exists m, fr = Some (JStr m) /\ In (JStr m) ts
               /\ forall s, In (JStr s) ts -> String.leb m s = true.

(** The greatest and the least of the strings seen so far. *)
Definition extremes_of (seen : list json) (st : json * json) : Prop :=
  (seen = [] /\ st = (JNull, JNull))
  \/ exists lo hi,
       st = (JStr hi, JStr lo)
       /\ In (JStr lo) seen /\ In (JStr hi) seen
       /\ forall s, In (JStr s) seen ->
                    String.leb lo s = true /\ String.leb s hi = true.

(** The strings on which [lower] is [str.lower()]. *)
Fixpoint is_ascii (s : string) : bool :=
  match s with
  | EmptyString => true
  | String c s' => Nat.ltb (nat_of_ascii c) 128 && is_ascii s'
  end.

(** * Properties *)

Local Open Scope list_scope.

(** ** [add_signal] and the score *)

Lemma sum_severity_app (l1 l2 : list RiskSignal) :
  sum_severity (l1 ++ l2) = sum_severity l1 + sum_severity l2.
Proof.
  induction l1 as [|s l1 IH]; simpl; [reflexivity|].
  rewrite IH. ring.
Qed.

Lemma add_signal_dependency (a : PackageAssessment) (s : RiskSignal) :
  dependency (add_signal a s) = dependency a.
Proof. reflexivity. Qed.

Lemma add_signal_metadata (a : PackageAssessment) (s : RiskSignal) :
  metadata (add_signal a s) = metadata a.
Proof. reflexivity. Qed.

Lemma add_signal_score_step (a : PackageAssessment) (s : RiskSignal) :
  0 <= sig_score s ->
  score a = Z.min 100 (sum_severity (signals a)) ->
  score (add_signal a s) = Z.min 100 (sum_severity (signals (add_signal a s))).
Proof.
  intros Hs Ha. simpl. rewrite sum_severity_app, Ha. simpl. lia.
Qed.

Lemma add_signals_nil (a : PackageAssessment) : add_signals a [] = a.
Proof. reflexivity. Qed.

Lemma add_signals_cons (a : PackageAssessment) (s : RiskSignal)
    (l : list RiskSignal) :
  add_signals a (s :: l) = add_signals (add_signal a s) l.
Proof. reflexivity. Qed.

Lemma add_signals_one (a : PackageAssessment) (s : RiskSignal) :
  add_signals a [s] = add_signal a s.
Proof. reflexivity. Qed.

Lemma add_signals_app (a : PackageAssessment) (l1 l2 : list RiskSignal) :
  add_signals a (l1 ++ l2) = add_signals (add_signals a l1) l2.
Proof. unfold add_signals. apply fold_left_app. Qed.

Lemma add_signals_signals (l : list RiskSignal) :
  forall a, signals (add_signals a l) = signals a ++ l.
Proof.
  induction l as [|s l IH]; intros a.
  - simpl. now rewrite app_nil_r.
  - rewrite add_signals_cons, IH. simpl. now rewrite <- app_assoc.
Qed.

Lemma add_signals_dependency (l : list RiskSignal) :
  forall a, dependency (add_signals a l) = dependency a.
Proof.
  induction l as [|s l IH]; intros a; [reflexivity|].
  rewrite add_signals_cons, IH. reflexivity.
Qed.

Lemma add_signals_metadata (l : list RiskSignal) :
  forall a, metadata (add_signals a l) = metadata a.
Proof.
  induction l as [|s l IH]; intros a; [reflexivity|].
  rewrite add_signals_cons, IH. reflexivity.
Qed.

Lemma add_signals_built (l : list RiskSignal) :
  forall a, built a -> Forall RiskSignal_valid l -> built (add_signals a l).
Proof.
  induction l as [|s l IH]; intros a Ha Hl; [exact Ha|].
  inversion Hl; subst. rewrite add_signals_cons.
  apply IH; [now constructor | assumption].
Qed.

Lemma built_score (a : PackageAssessment) :
  built a -> score a = Z.min 100 (sum_severity (signals a)).
Proof.
  induction 1 as [spec md | a s _ IH Hs].
  - reflexivity.
  - apply add_signal_score_step; [apply Hs | exact IH].
Qed.

(** ** The evaluators, one by one *)

Lemma typosquat_scan_emits (name : string) (tops : list string)
    (a : PackageAssessment) :
  exists l, typosquat_scan name tops a = add_signals a l
            /\ typosquat_emitted name l.
Proof.
  induction tops as [|top rest IH]; simpl.
  - exists []. split; [reflexivity | now left].
  - destruct (levenshtein name top =? 0)%nat.
    + exists []. split; [reflexivity | now left].
    + destruct (levenshtein name top <=? 2)%nat.
      * exists [typosquat_signal name (levenshtein name top) top].
        split; [reflexivity | right; eauto].
      * exact IH.
Qed.

Lemma _evaluate_recency_emits (now : Z) (m : PackageMetadata)
    (a a' : PackageAssessment) :
  _evaluate_recency now m a = Ok a' ->
  exists l, a' = add_signals a l /\ recency_emitted now m l.
Proof.
  unfold _evaluate_recency, recency_emitted, age_at_most, now_minus.
  destruct (first_published m) as [dt|].
  - destruct (utc_micros dt) as [t|] eqn:Ht; simpl; [|discriminate].
    destruct (now - t <=? timedelta_days RECENT_THRESHOLD_DAYS) eqn:Hle;
      intros H; inversion H; subst.
    + exists [fresh_release_signal]. split; [reflexivity|]. left.
      split; [reflexivity|]. exists dt, t.
      apply Z.leb_le in Hle. auto.
    + exists []. split; [reflexivity|]. right. split; [reflexivity|].
      intros (dt' & t' & E1 & E2 & E3). inversion E1; subst dt'.
      rewrite Ht in E2. inversion E2; subst t'.
      apply Z.leb_gt in Hle. unfold RECENT_THRESHOLD_DAYS in Hle. lia.
  - intros H; inversion H; subst. exists []. split; [reflexivity|].
    right. split; [reflexivity|].
    intros (dt' & t' & E1 & _). discriminate.
Qed.

Lemma _evaluate_staleness_emits (now : Z) (m : PackageMetadata)
    (a a' : PackageAssessment) :
  _evaluate_staleness now m a = Ok a' ->
  exists l, a' = add_signals a l /\ staleness_emitted now m l.
Proof.
  unfold _evaluate_staleness, staleness_emitted, age_at_least, now_minus.
  destruct (latest_published m) as [dt|].
  - destruct (utc_micros dt) as [t|] eqn:Ht; simpl; [|discriminate].
    destruct (now - t >=? timedelta_days STALE_THRESHOLD_DAYS) eqn:Hge;
      intros H; inversion H; subst.
    + exists [stale_package_signal]. split; [reflexivity|]. left.
      split; [reflexivity|]. exists dt, t.
      apply Z.geb_le in Hge. unfold STALE_THRESHOLD_DAYS in Hge.
      repeat split; auto; lia.
    + exists []. split; [reflexivity|]. right. split; [reflexivity|].
      intros (dt' & t' & E1 & E2 & E3). inversion E1; subst dt'.
      rewrite Ht in E2. inversion E2; subst t'.
      rewrite Z.geb_leb in Hge. apply Z.leb_gt in Hge.
      unfold STALE_THRESHOLD_DAYS in Hge. lia.
  - intros H; inversion H; subst. exists []. split; [reflexivity|].
    right. split; [reflexivity|].
    intros (dt' & t' & E1 & _). discriminate.
Qed.

Lemma _evaluate_popularity_emits (m : PackageMetadata) (a : PackageAssessment) :
  exists l, _evaluate_popularity m a = add_signals a l
            /\ popularity_emitted m l.
Proof.
  unfold _evaluate_popularity, popularity_emitted, LOW_DOWNLOADS_THRESHOLD.
  destruct (weekly_downloads m) as [n|].
  - destruct (n <? 500) eqn:Hn.
    + exists [popularity_signal n]. split; [reflexivity|]. left.
      exists n. apply Z.ltb_lt in Hn. auto.
    + exists []. split; [reflexivity|]. right. split; [reflexivity|].
      intros n' E. inversion E; subst. apply Z.ltb_ge in Hn. exact Hn.
  - exists []. split; [reflexivity|]. right. split; [reflexivity|].
    intros n' E. discriminate.
Qed.

Lemma _evaluate_maintainers_emits (m : PackageMetadata) (a : PackageAssessment) :
  exists l, _evaluate_maintainers m a = add_signals a l
            /\ maintainers_emitted m l.
Proof.
  unfold _evaluate_maintainers, maintainers_emitted.
  destruct (List.length (maintainers m) <=? 1)%nat eqn:Hn.
  - exists [maintainers_signal]. split; [reflexivity|]. left.
    apply Nat.leb_le in Hn. auto.
  - exists []. split; [reflexivity|]. right.
    apply Nat.leb_gt in Hn. auto.
Qed.

Lemma t_2024_01_01_ok : utc_micros utc_2024_01_01 = Some t_2024_01_01.
Proof. reflexivity. Qed.

(** ** [assess_dependency] as a whole *)

Lemma assess_dependency_none (tops : list (string * list string))
    (now_r now_s : Z) (spec : DependencySpec) :
  assess_dependency tops now_r now_s spec None
  = Ok {| dependency := spec; metadata := None;
          signals := [metadata_gaps_signal]; score := 40 |}.
Proof. reflexivity. Qed.

Lemma assess_dependency_some (tops : list (string * list string))
    (now_r now_s : Z) (spec : DependencySpec) (m : PackageMetadata)
    (a : PackageAssessment) :
  assess_dependency tops now_r now_s spec (Some m) = Ok a ->
  exists l1 l2 l3 l4 l5,
    a = add_signals (PackageAssessment_new spec (Some m))
          (l1 ++ l2 ++ l3 ++ l4 ++ l5)
    /\ typosquat_emitted (dep_name spec) l1
    /\ recency_emitted now_r m l2
    /\ staleness_emitted now_s m l3
    /\ popularity_emitted m l4
    /\ maintainers_emitted m l5.
Proof.
  unfold assess_dependency, _evaluate_typosquat.
  set (a0 := PackageAssessment_new spec (Some m)).
  destruct (typosquat_scan_emits (dep_name spec)
              (get_top_packages tops (dep_ecosystem spec)) a0)
    as (l1 & -> & H1).
  destruct (_evaluate_recency now_r m (add_signals a0 l1)) as [a2|e] eqn:E2;
    simpl; [|discriminate].
  destruct (_evaluate_recency_emits _ _ _ _ E2) as (l2 & -> & H2).
  destruct (_evaluate_staleness now_s m (add_signals (add_signals a0 l1) l2))
    as [a3|e] eqn:E3; simpl; [|discriminate].
  destruct (_evaluate_staleness_emits _ _ _ _ E3) as (l3 & -> & H3).
  destruct (_evaluate_popularity_emits m
              (add_signals (add_signals (add_signals a0 l1) l2) l3))
    as (l4 & -> & H4).
  destruct (_evaluate_maintainers_emits m
              (add_signals (add_signals (add_signals (add_signals a0 l1) l2) l3) l4))
    as (l5 & -> & H5).
  intros H; inversion H; subst a.
  exists l1, l2, l3, l4, l5.
  rewrite !add_signals_app. auto 10.
Qed.

Lemma now_minus_aware (now : Z) (dt : datetime) :
  tzinfo dt <> None -> exists t, utc_micros dt = Some t /\ now_minus now dt = Ok (now - t).
Proof.
  unfold now_minus, utc_micros. destruct (tzinfo dt) as [off|]; [|congruence].
  intros _. eexists; split; reflexivity.
Qed.

Lemma _evaluate_recency_returns (now : Z) (m : PackageMetadata)
    (a : PackageAssessment) :
  aware (first_published m) -> exists a', _evaluate_recency now m a = Ok a'.
Proof.
  unfold _evaluate_recency, aware. destruct (first_published m) as [dt|].
  - intros H. destruct (now_minus_aware now dt H) as (t & _ & ->). simpl.
    destruct (_ <=? _); eauto.
  - eauto.
Qed.

Lemma _evaluate_staleness_returns (now : Z) (m : PackageMetadata)
    (a : PackageAssessment) :
  aware (latest_published m) -> exists a', _evaluate_staleness now m a = Ok a'.
Proof.
  unfold _evaluate_staleness, aware. destruct (latest_published m) as [dt|].
  - intros H. destruct (now_minus_aware now dt H) as (t & _ & ->). simpl.
    destruct (_ >=? _); eauto.
  - eauto.
Qed.

Lemma assess_dependency_returns (tops : list (string * list string))
    (now_r now_s : Z) (spec : DependencySpec) (m : PackageMetadata) :
  aware (first_published m) -> aware (latest_published m) ->
  exists a, assess_dependency tops now_r now_s spec (Some m) = Ok a.
Proof.
  intros Hf Hl. unfold assess_dependency.
  destruct (_evaluate_recency_returns now_r m
              (_evaluate_typosquat tops spec (PackageAssessment_new spec (Some m))) Hf)
    as (a2 & ->). simpl.
  destruct (_evaluate_staleness_returns now_s m a2 Hl) as (a3 & ->). simpl.
  eauto.
Qed.

(** Every signal an evaluator can append passes validation. *)
Lemma emitted_valid (name : string) (now_r now_s : Z) (m : PackageMetadata)
    (l1 l2 l3 l4 l5 : list RiskSignal) :
  typosquat_emitted name l1 -> recency_emitted now_r m l2 ->
  staleness_emitted now_s m l3 -> popularity_emitted m l4 ->
  maintainers_emitted m l5 ->
  Forall RiskSignal_valid (l1 ++ l2 ++ l3 ++ l4 ++ l5).
Proof.
  intros [->|(d & top & ->)] [[-> _]|[-> _]] [[-> _]|[-> _]]
         [(n & -> & _)|[-> _]] [[-> _]|[-> _]];
    simpl; repeat constructor; unfold RiskSignal_valid; simpl; lia.
Qed.

Lemma assess_dependency_built (tops : list (string * list string))
    (now_r now_s : Z) (spec : DependencySpec) (md : option PackageMetadata)
    (a : PackageAssessment) :
  assess_dependency tops now_r now_s spec md = Ok a -> built a.
Proof.
  destruct md as [m|].
  - intros H. apply assess_dependency_some in H.
    destruct H as (l1 & l2 & l3 & l4 & l5 & -> & H1 & H2 & H3 & H4 & H5).
    apply add_signals_built; [constructor|].
    eapply emitted_valid; eassumption.
  - rewrite assess_dependency_none. intros H; inversion H; subst.
    apply (built_add (PackageAssessment_new spec None) metadata_gaps_signal).
    + constructor.
    + unfold RiskSignal_valid; simpl; lia.
Qed.

(** ** The claims about scoring *)

(** C1: every assessment built from a new one by [add_signal] alone has
    [score = min(100, sum of the severities of its signals)], the next
    [add_signal] appends its signal and keeps the equation, and every
    assessment [assess_dependency] returns is built that way. *)
Theorem C1_score_is_clamped_sum (a : PackageAssessment) :
  built a ->
  score a = Z.min 100 (sum_severity (signals a))
  /\ (forall s, RiskSignal_valid s ->
        signals (add_signal a s) = signals a ++ [s]
        /\ score (add_signal a s)
           = Z.min 100 (sum_severity (signals (add_signal a s))))
  /\ (forall tops now_r now_s spec md a',
        assess_dependency tops now_r now_s spec md = Ok a' ->
        built a'
        /\ score a' = Z.min 100 (sum_severity (signals a'))).
Proof.
  intros Ha. split; [now apply built_score|]. split.
  - intros s Hs. split; [reflexivity|].
    apply built_score. now constructor.
  - intros tops now_r now_s spec md a' H.
    apply assess_dependency_built in H. split; [exact H|].
    now apply built_score.
Qed.

Lemma C1_witness :
  let a := add_signal
             (add_signal (PackageAssessment_new sample_spec None)
                (typosquat_signal "reqeusts" 2 "requests"))
             metadata_gaps_signal in
  score a = 90
  /\ score (add_signal a fresh_release_signal) = 100
  /\ score (add_signal a fresh_release_signal)
     = Z.min 100 (sum_severity (signals (add_signal a fresh_release_signal))).
Proof.
  intros a.
  assert (Ha : built a).
  { unfold a. repeat constructor; simpl; lia. }
  split; [reflexivity|]. split; [reflexivity|].
  apply (proj1 (proj2 (C1_score_is_clamped_sum a Ha)) fresh_release_signal).
  unfold RiskSignal_valid; simpl; lia.
Defined.

(** C2: without metadata the assessment is the single [metadata-gaps]
    signal of severity 40 with score 40, whatever the corpus, the name and
    the clock are, so no evaluator has run; and an assessment holds exactly
    one [metadata-gaps] signal of severity 40 if and only if the metadata
    was absent: with metadata it holds none. *)
Theorem C2_metadata_gaps_iff_absent (tops : list (string * list string))
    (now_r now_s : Z) (spec : DependencySpec) :
  assess_dependency tops now_r now_s spec None
  = Ok {| dependency := spec; metadata := None;
          signals := [metadata_gaps_signal]; score := 40 |}
  /\ category metadata_gaps_signal = metadata_gaps
  /\ sig_score metadata_gaps_signal = 40
  /\ forall md a,
       assess_dependency tops now_r now_s spec md = Ok a ->
       ((exists s, of_category metadata_gaps (signals a) = [s]
                   /\ sig_score s = 40) <-> md = None)
       /\ (md <> None -> of_category metadata_gaps (signals a) = []).
Proof.
  repeat split; try reflexivity.
  - intros (s & Hs & _). destruct md as [m|]; [|reflexivity].
    apply assess_dependency_some in H.
    destruct H as (l1 & l2 & l3 & l4 & l5 & -> & H1 & H2 & H3 & H4 & H5).
    rewrite add_signals_signals in Hs. simpl in Hs.
    destruct H1 as [->|(d & top & ->)], H2 as [[-> _]|[-> _]],
             H3 as [[-> _]|[-> _]], H4 as [(n & -> & _)|[-> _]],
             H5 as [[-> _]|[-> _]]; discriminate Hs.
  - intros ->. rewrite assess_dependency_none in H.
    inversion H; subst. exists metadata_gaps_signal. split; reflexivity.
  - intros Hmd. destruct md as [m|]; [|congruence].
    apply assess_dependency_some in H.
    destruct H as (l1 & l2 & l3 & l4 & l5 & -> & H1 & H2 & H3 & H4 & H5).
    rewrite add_signals_signals. simpl.
    destruct H1 as [->|(d & top & ->)], H2 as [[-> _]|[-> _]],
             H3 as [[-> _]|[-> _]], H4 as [(n & -> & _)|[-> _]],
             H5 as [[-> _]|[-> _]]; reflexivity.
Qed.

Lemma C2_witness :
  of_category metadata_gaps
    [typosquat_signal "reqeusts" 2 "requests"; fresh_release_signal;
     maintainers_signal] = [].
Proof.
  refine (proj2
    (proj2 (proj2 (proj2
       (C2_metadata_gaps_iff_absent sample_corpus
          t_2024_01_01 t_2024_01_01 sample_spec)))
       (Some (sample_metadata (Some utc_2024_01_01) (Some utc_2024_01_01)))
       _ eq_refl) _).
  discriminate.
Defined.

(** C9: [assess_dependency] returns an assessment whenever the timestamps
    it is given are aware, and the assessment it returns carries the spec
    and the metadata it was given, unchanged: it is the new assessment for
    them with signals appended. *)
Theorem C9_assessment_carries_inputs (tops : list (string * list string))
    (now_r now_s : Z) (spec : DependencySpec) (md : option PackageMetadata) :
  (timestamps_aware md ->
   exists a, assess_dependency tops now_r now_s spec md = Ok a)
  /\ forall a,
       assess_dependency tops now_r now_s spec md = Ok a ->
       dependency a = spec
       /\ metadata a = md
       /\ a = add_signals (PackageAssessment_new spec md) (signals a).
Proof.
  split.
  - destruct md as [m|]; simpl.
    + intros [Hf Hl]. now apply assess_dependency_returns.
    + intros _. eexists. reflexivity.
  - intros a H. destruct md as [m|].
    + apply assess_dependency_some in H.
      destruct H as (l1 & l2 & l3 & l4 & l5 & -> & _).
      rewrite add_signals_dependency, add_signals_metadata,
        add_signals_signals.
      auto.
    + rewrite assess_dependency_none in H. inversion H; subst.
      auto.
Qed.

Lemma C9_witness :
  exists a,
    assess_dependency sample_corpus t_2024_01_01 t_2024_01_01 sample_spec
      (Some (sample_metadata (Some utc_2024_01_01) (Some utc_2024_01_01)))
    = Ok a
    /\ dependency a = sample_spec
    /\ metadata a
       = Some (sample_metadata (Some utc_2024_01_01) (Some utc_2024_01_01)).
Proof.
  eexists. split; [reflexivity|].
  refine (let H := proj2
            (C9_assessment_carries_inputs sample_corpus t_2024_01_01
               t_2024_01_01 sample_spec
               (Some (sample_metadata (Some utc_2024_01_01)
                        (Some utc_2024_01_01)))) _ eq_refl in
          conj (proj1 H) (proj1 (proj2 H))).
Defined.

(** C6: given aware timestamps, [assess_dependency] returns an assessment
    that holds the [fresh-release] signal (severity 25), once, exactly when
    [first_published] is present and [now - first_published <= 45 days],
    and the [stale-package] signal (severity 20), once, exactly when
    [latest_published] is present and [now - latest_published >= 365 days];
    each condition reads its own timestamp and its own clock reading. *)
Theorem C6_recency_and_staleness_windows (tops : list (string * list string))
    (now_r now_s : Z) (spec : DependencySpec) (m : PackageMetadata) :
  aware (first_published m) -> aware (latest_published m) ->
  exists a,
    assess_dependency tops now_r now_s spec (Some m) = Ok a
    /\ (of_category fresh_release (signals a) = [fresh_release_signal]
        <-> age_at_most now_r (first_published m) (timedelta_days 45))
    /\ (of_category fresh_release (signals a) = []
        <-> ~ age_at_most now_r (first_published m) (timedelta_days 45))
    /\ (of_category stale_package (signals a) = [stale_package_signal]
        <-> age_at_least now_s (latest_published m) (timedelta_days 365))
    /\ (of_category stale_package (signals a) = []
        <-> ~ age_at_least now_s (latest_published m) (timedelta_days 365))
    /\ sig_score fresh_release_signal = 25
    /\ sig_score stale_package_signal = 20.
Proof.
  intros Hf Hl.
  destruct (assess_dependency_returns tops now_r now_s spec m Hf Hl) as (a & Ha).
  exists a. split; [exact Ha|].
  apply assess_dependency_some in Ha.
  destruct Ha as (l1 & l2 & l3 & l4 & l5 & -> & H1 & H2 & H3 & H4 & H5).
  rewrite add_signals_signals. simpl.
  destruct H1 as [->|(d & top & ->)], H2 as [[-> C2]|[-> C2]],
           H3 as [[-> C3]|[-> C3]], H4 as [(n & -> & _)|[-> _]],
           H5 as [[-> _]|[-> _]];
    cbn; repeat split; intros; try assumption; try reflexivity;
    try discriminate; try contradiction.
Qed.

(** A record first published today whose latest release is a year old
    gets both signals: neither condition looks at the other. *)
Lemma recency_and_staleness_both_fire :
  exists a,
    assess_dependency sample_corpus (t_2024_01_01 + timedelta_days 365)
      (t_2024_01_01 + timedelta_days 365) sample_spec
      (Some (sample_metadata
               (Some (mkDatetime 2024 12 31 0 0 0 0 (Some 0)))
               (Some utc_2024_01_01)))
    = Ok a
    /\ of_category fresh_release (signals a) = [fresh_release_signal]
    /\ of_category stale_package (signals a) = [stale_package_signal].
Proof. eexists. repeat split. Qed.

(** The boundaries: at exactly 45 days fresh, one microsecond later not;
    at exactly 365 days stale, one microsecond earlier not. *)
Lemma C6_witness :
  let m := sample_metadata (Some utc_2024_01_01) (Some utc_2024_01_01) in
  age_at_most (t_2024_01_01 + timedelta_days 45) (first_published m)
    (timedelta_days 45)
  /\ ~ age_at_most (t_2024_01_01 + timedelta_days 45 + 1) (first_published m)
         (timedelta_days 45)
  /\ age_at_least (t_2024_01_01 + timedelta_days 365) (latest_published m)
       (timedelta_days 365)
  /\ ~ age_at_least (t_2024_01_01 + timedelta_days 365 - 1) (latest_published m)
         (timedelta_days 365)
  /\ exists a,
       assess_dependency sample_corpus (t_2024_01_01 + timedelta_days 45)
         (t_2024_01_01 + timedelta_days 365) sample_spec (Some m) = Ok a
       /\ of_category fresh_release (signals a) = [fresh_release_signal]
       /\ of_category stale_package (signals a) = [stale_package_signal].
Proof.
  intros m.
  assert (Hm : aware (Some utc_2024_01_01)) by (simpl; discriminate).
  assert (A1 : age_at_most (t_2024_01_01 + timedelta_days 45)
                 (first_published m) (timedelta_days 45)).
  { exists utc_2024_01_01, t_2024_01_01. repeat split. vm_compute. discriminate. }
  assert (A2 : age_at_least (t_2024_01_01 + timedelta_days 365)
                 (latest_published m) (timedelta_days 365)).
  { exists utc_2024_01_01, t_2024_01_01. repeat split. vm_compute. discriminate. }
  split; [exact A1|]. split.
  { intros (dt & t & E1 & E2 & E3). inversion E1; subst dt.
    inversion E2; subst t. vm_compute in E3. apply E3. reflexivity. }
  split; [exact A2|]. split.
  { intros (dt & t & E1 & E2 & E3). inversion E1; subst dt.
    inversion E2; subst t. vm_compute in E3. apply E3. reflexivity. }
  destruct (C6_recency_and_staleness_windows sample_corpus
              (t_2024_01_01 + timedelta_days 45)
              (t_2024_01_01 + timedelta_days 365) sample_spec m Hm Hm)
    as (a & Ha & F1 & _ & S1 & _).
  exists a. split; [exact Ha|]. split.
  - apply F1. exact A1.
  - apply S1. exact A2.
Defined.

(** ** The typosquat scan *)

Lemma typosquat_scan_first (name : string) (refs : list string) :
  (forall t, In t refs -> levenshtein name t <> 0%nat) ->
  (exists t, In t refs /\ (1 <= levenshtein name t <= 2)%nat) ->
  exists pre top post,
    refs = pre ++ top :: post
    /\ (forall t, In t pre -> (2 < levenshtein name t)%nat)
    /\ (1 <= levenshtein name top <= 2)%nat
    /\ forall post' a,
         typosquat_scan name (pre ++ top :: post') a
         = add_signal a (typosquat_signal name (levenshtein name top) top).
Proof.
  induction refs as [|r refs IH]; intros Hne (t & Hin & Ht).
  - destruct Hin.
  - assert (Hr : levenshtein name r <> 0%nat) by (apply Hne; now left).
    destruct (levenshtein name r <=? 2)%nat eqn:Hle.
    + exists [], r, refs. apply Nat.leb_le in Hle.
      split; [reflexivity|]. split; [intros ? []|]. split; [lia|].
      intros post' a. simpl.
      destruct (levenshtein name r =? 0)%nat eqn:H0.
      * apply Nat.eqb_eq in H0. contradiction.
      * apply Nat.leb_le in Hle. now rewrite Hle.
    + apply Nat.leb_gt in Hle.
      destruct IH as (pre & top & post & -> & Hpre & Htop & Hscan).
      * intros t' Ht'. apply Hne. now right.
      * destruct Hin as [<-|Hin]; [lia|]. eauto.
      * exists (r :: pre), top, post.
        split; [reflexivity|]. split.
        { intros t' [<-|Ht']; [lia | now apply Hpre]. }
        split; [exact Htop|].
        intros post' a. simpl.
        destruct (levenshtein name r =? 0)%nat eqn:H0.
        { apply Nat.eqb_eq in H0. contradiction. }
        apply Nat.leb_gt in Hle. rewrite Hle. apply Hscan.
Qed.

(** The first name within two edits is reported even when a later one is
    closer. *)
Lemma typosquat_first_match_not_closest :
  levenshtein "abc" "abxy" = 2%nat
  /\ levenshtein "abc" "abd" = 1%nat
  /\ forall a,
       typosquat_scan "abc" ["abxy"; "abd"] a
       = add_signal a (typosquat_signal "abc" 2 "abxy").
Proof. repeat split. Qed.

(** An exact match met before any name within two edits ends the scan
    with nothing appended. *)
Lemma typosquat_scan_exact_first (name : string) (pre post : list string)
    (top : string) (a : PackageAssessment) :
  (forall t, In t pre -> (2 < levenshtein name t)%nat) ->
  levenshtein name top = 0%nat ->
  typosquat_scan name (pre ++ top :: post) a = a.
Proof.
  intros Hpre Htop. induction pre as [|r pre IH]; simpl.
  - now rewrite Htop.
  - assert (Hr : (2 < levenshtein name r)%nat) by (apply Hpre; now left).
    destruct (levenshtein name r =? 0)%nat eqn:H0.
    + apply Nat.eqb_eq in H0. lia.
    + apply Nat.leb_gt in Hr. rewrite Hr. apply IH.
      intros t Ht. apply Hpre. now right.
Qed.

(** C3, at the failing input: the npm list holds [request] before
    [requests]; the dependency [requests] is at distance 0 of the second
    name, and the assessment still holds a typosquat signal, naming the
    first. *)
Theorem C3_exact_match_after_near_match_is_flagged :
  In "requests" (get_top_packages sample_corpus npm)
  /\ levenshtein (dep_name requests_spec) "requests" = 0%nat
  /\ exists a,
       assess_dependency sample_corpus t_2024_01_01 t_2024_01_01
         requests_spec
         (Some (sample_metadata (Some utc_2024_01_01) (Some utc_2024_01_01)))
       = Ok a
       /\ of_category typosquat (signals a)
          = [typosquat_signal "requests" 1 "request"].
Proof.
  split; [simpl; auto|]. split; [reflexivity|].
  eexists. split; reflexivity.
Qed.

(** C4, as stated, fails: [requests] is one edit away from the reference
    name [request], yet with [requests] itself earlier in the list the
    evaluator appends nothing. *)
Lemma C4_counterexample :
  (exists top,
     In top (get_top_packages exact_first_corpus (dep_ecosystem requests_spec))
     /\ (1 <= levenshtein (dep_name requests_spec) top <= 2)%nat)
  /\ signals (_evaluate_typosquat exact_first_corpus requests_spec
                (PackageAssessment_new requests_spec None)) = [].
Proof.
  split; [|reflexivity].
  exists "request". split; [simpl; auto|].
  vm_compute. lia.
Qed.

(** C4, amended: when no reference name of the ecosystem is the
    dependency's name itself (distance 0) and some reference name is at
    distance 1 or 2, the evaluator appends exactly one signal, of severity
    50 and category typosquat, whose reason names the first reference name
    in list order at distance 1 or 2; the names after it are not read. *)
Theorem C4_first_near_match_is_named (tops : list (string * list string))
    (spec : DependencySpec) (a : PackageAssessment) :
  let refs := get_top_packages tops (dep_ecosystem spec) in
  let name := dep_name spec in
  (forall t, In t refs -> levenshtein name t <> 0%nat) ->
  (exists t, In t refs /\ (1 <= levenshtein name t <= 2)%nat) ->
  exists pre top post,
    refs = pre ++ top :: post
    /\ (forall t, In t pre -> (2 < levenshtein name t)%nat)
    /\ (1 <= levenshtein name top <= 2)%nat
    /\ _evaluate_typosquat tops spec a
       = add_signal a (typosquat_signal name (levenshtein name top) top)
    /\ sig_score (typosquat_signal name (levenshtein name top) top) = 50
    /\ category (typosquat_signal name (levenshtein name top) top) = typosquat
    /\ forall post',
         typosquat_scan name (pre ++ top :: post') a
         = add_signal a (typosquat_signal name (levenshtein name top) top).
Proof.
  intros refs name Hne Hex.
  destruct (typosquat_scan_first name refs Hne Hex)
    as (pre & top & post & E & Hpre & Htop & Hscan).
  exists pre, top, post. repeat split; try assumption; try lia.
  - unfold _evaluate_typosquat. fold refs. fold name. rewrite E. apply Hscan.
  - intros post'. apply Hscan.
Qed.

Lemma C4_witness :
  exists pre top post,
    get_top_packages sample_corpus pypi = pre ++ top :: post
    /\ (forall t, In t pre -> (2 < levenshtein "reqeusts" t)%nat)
    /\ (1 <= levenshtein "reqeusts" top <= 2)%nat
    /\ _evaluate_typosquat sample_corpus sample_spec
         (PackageAssessment_new sample_spec None)
       = add_signal (PackageAssessment_new sample_spec None)
           (typosquat_signal "reqeusts" (levenshtein "reqeusts" top) top).
Proof.
  destruct (C4_first_near_match_is_named sample_corpus sample_spec
              (PackageAssessment_new sample_spec None))
    as (pre & top & post & E & Hpre & Htop & Hev & _).
  - simpl. intros t [<-|[<-|[]]]; vm_compute; discriminate.
  - exists "requests". split; [simpl; auto|].
    vm_compute. lia.
  - exists pre, top, post. auto.
Defined.

(** ** Timestamps *)

Lemma fromisoformat_raises_ValueError (s : string) (e : exn) :
  fromisoformat s = Raise e -> e = ValueError.
Proof.
  unfold fromisoformat. destruct (parse_isoformat s) as [d|].
  - destruct (datetime_in_range d); congruence.
  - congruence.
Qed.

(** On a string or on [None], [_parse_datetime] returns: the field is a
    datetime or absent, and the record is not failed. *)
Lemma _parse_datetime_returns (text : json) :
  text = JNull \/ (exists s, text = JStr s) ->
  exists r, _parse_datetime text = Ok r.
Proof.
  intros [->|(s & ->)]; [now exists None|].
  unfold _parse_datetime. destruct (negb (truthy (JStr s))); [now exists None|].
  destruct (fromisoformat (replace_Z s)) as [d|e] eqn:E; [now exists (Some d)|].
  apply fromisoformat_raises_ValueError in E. subst e. now exists None.
Qed.

(** No timestamp in, no timestamp out: neither "now" nor the epoch. *)
Lemma _parse_datetime_absent :
  _parse_datetime JNull = Ok None /\ _parse_datetime (JStr "") = Ok None.
Proof. split; reflexivity. Qed.

Lemma _parse_datetime_examples :
  _parse_datetime (JStr "2024-01-01T00:00:00.000000Z") = Ok (Some utc_2024_01_01)
  /\ _parse_datetime (JStr "2024-01-01T00:00:00+00:00") = Ok (Some utc_2024_01_01)
  /\ _parse_datetime (JStr "2024-13-01T00:00:00Z") = Ok None
  /\ _parse_datetime (JStr "yesterday") = Ok None.
Proof. repeat split. Qed.

(** C7, at the failing input: the timestamp string [2024-01-01T00:00:00]
    carries no offset; [_parse_datetime] turns it into a naive datetime,
    [_fetch_pypi] stores that datetime in both timestamp fields of the
    record, and scoring the record raises [TypeError]. *)
Theorem C7_offsetless_timestamp_is_naive
    (py_lt py_gt : json -> json -> result bool) (py_str : json -> string)
    (pydantic_int : json -> option Z) (tops : list (string * list string))
    (now_r now_s : Z) :
  _parse_datetime (JStr "2024-01-01T00:00:00") = Ok (Some naive_2024_01_01)
  /\ tzinfo naive_2024_01_01 = None
  /\ (exists m,
        _fetch_pypi (registry_serving "2024-01-01T00:00:00") py_lt py_gt
          py_str pydantic_int sample_spec = Ok (Some m)
        /\ first_published m = Some naive_2024_01_01
        /\ latest_published m = Some naive_2024_01_01
        /\ assess_dependency tops now_r now_s sample_spec (Some m)
           = Raise TypeError).
Proof.
  split; [reflexivity|]. split; [reflexivity|].
  eexists. split; [reflexivity|]. split; [reflexivity|].
  split; reflexivity.
Qed.

(** ** The registry client *)

Section FetchFacts.

Variable http_get : string -> http_reply.
Variable py_lt : json -> json -> result bool.
Variable py_gt : json -> json -> result bool.
Variable py_str : json -> string.
Variable pydantic_int : json -> option Z.
Variable PackageMetadata_validate : dict -> result PackageMetadata.
Variable model_dump : PackageMetadata -> json.

Let fetch := fetch_metadata http_get py_lt py_gt py_str pydantic_int
               PackageMetadata_validate model_dump.

(** A connection error on a cache miss gives absent metadata. *)
Lemma fetch_metadata_transport_failure (now_get now_set : Q)
    (spec : DependencySpec) (c : MetadataCache) (cached : json) :
  MetadataCache_get c now_get (slug spec) = (Ok cached, c) ->
  truthy cached = false ->
  http_get (registry_url spec) = TransportFailure ->
  fetch now_get now_set spec c = (Ok None, c).
Proof.
  intros Hget Hfalsy Hhttp. unfold fetch, fetch_metadata.
  rewrite Hget, Hfalsy. unfold registry_url in Hhttp.
  destruct (dep_ecosystem spec); unfold _fetch_pypi, _fetch_npm;
    rewrite Hhttp; reflexivity.
Qed.

(** So does a status other than 200. *)
Lemma fetch_metadata_bad_status (now_get now_set : Q)
    (spec : DependencySpec) (c : MetadataCache) (cached : json)
    (status : Z) (body : option json) :
  MetadataCache_get c now_get (slug spec) = (Ok cached, c) ->
  truthy cached = false ->
  http_get (registry_url spec) = Response status body ->
  status <> 200 ->
  fetch now_get now_set spec c = (Ok None, c).
Proof.
  intros Hget Hfalsy Hhttp Hst. unfold fetch, fetch_metadata.
  rewrite Hget, Hfalsy. unfold registry_url in Hhttp.
  apply Z.eqb_neq in Hst.
  destruct (dep_ecosystem spec); unfold _fetch_pypi, _fetch_npm;
    rewrite Hhttp, Hst; reflexivity.
Qed.

(** A body that is not JSON, under status 200, raises out of
    [fetch_metadata]. *)
Lemma fetch_metadata_body_not_json (now_get now_set : Q)
    (spec : DependencySpec) (c : MetadataCache) (cached : json) :
  MetadataCache_get c now_get (slug spec) = (Ok cached, c) ->
  truthy cached = false ->
  http_get (registry_url spec) = Response 200 None ->
  fetch now_get now_set spec c = (Raise JSONDecodeError, c).
Proof.
  intros Hget Hfalsy Hhttp. unfold fetch, fetch_metadata.
  rewrite Hget, Hfalsy. unfold registry_url in Hhttp.
  destruct (dep_ecosystem spec); unfold _fetch_pypi, _fetch_npm;
    rewrite Hhttp; reflexivity.
Qed.

End FetchFacts.

(** C5, at the failing input: the registry answers the lookup of [broken]
    with status 200 and a body that is not JSON.  [fetch_metadata] raises
    [JSONDecodeError] instead of returning absent metadata, and the loop
    of the command line stops there: [reqeusts], which is analysed when it
    stands alone, is not scored when it comes after [broken]. *)
Theorem C5_undecodable_body_raises
    (py_lt py_gt : json -> json -> result bool) (py_str : json -> string)
    (pydantic_int : json -> option Z)
    (PackageMetadata_validate : dict -> result PackageMetadata)
    (model_dump : PackageMetadata -> json) :
  let cold := empty_cache FileMissing in
  MetadataCache_init FileMissing = Ok cold
  /\ fetch_metadata flaky_registry py_lt py_gt py_str pydantic_int
    PackageMetadata_validate model_dump (inject_Z 1700000000)
    (inject_Z 1700000000) broken_spec cold
  = (Raise JSONDecodeError, cold)
  /\ fst (analyse sample_corpus flaky_registry py_lt py_gt py_str pydantic_int
            PackageMetadata_validate model_dump
            [(broken_spec, sample_readings); (sample_spec, sample_readings)]
            cold)
     = Raise JSONDecodeError
  /\ exists a,
       fst (analyse sample_corpus flaky_registry py_lt py_gt py_str
              pydantic_int PackageMetadata_validate model_dump
              [(sample_spec, sample_readings)] cold)
       = Ok [a].
Proof.
  intros cold. split; [reflexivity|].
  split; [reflexivity|]. split; [reflexivity|].
  eexists. reflexivity.
Qed.

(** ** The cache *)

Lemma dict_get_set_same (d : dict) (key : string) (v : json) :
  dict_get (dict_set d key v) key = Some v.
Proof.
  induction d as [|[k w] d IH]; simpl.
  - now rewrite String.eqb_refl.
  - destruct (String.eqb k key) eqn:E; simpl; rewrite E; [reflexivity | exact IH].
Qed.

Lemma dict_get_set_other (d : dict) (key key' : string) (v : json) :
  key' <> key -> dict_get (dict_set d key v) key' = dict_get d key'.
Proof.
  intros Hne. induction d as [|[k w] d IH]; simpl.
  - destruct (String.eqb key key') eqn:E; [|reflexivity].
    apply String.eqb_eq in E. congruence.
  - destruct (String.eqb k key) eqn:E; simpl.
    + apply String.eqb_eq in E. subst k.
      destruct (String.eqb key key') eqn:E'; [|reflexivity].
      apply String.eqb_eq in E'. congruence.
    + destruct (String.eqb k key'); [reflexivity | exact IH].
Qed.

Lemma Qgt_bool_true (a b : Q) : (b < a)%Q -> Qgt_bool a b = true.
Proof.
  intros H. unfold Qgt_bool. destruct (Qle_bool a b) eqn:E; [|reflexivity].
  apply Qle_bool_iff in E. exfalso. exact (Qlt_not_le _ _ H E).
Qed.

Lemma Qgt_bool_false (a b : Q) : (a <= b)%Q -> Qgt_bool a b = false.
Proof.
  intros H. unfold Qgt_bool. apply Qle_bool_iff in H. now rewrite H.
Qed.

Lemma py_get_some (d : dict) (key : string) (default x : json) :
  dict_get d key = Some x -> py_get (JObj d) key default = Ok x.
Proof. intros H. unfold py_get. now rewrite H. Qed.

Lemma py_get_none (d : dict) (key : string) (default : json) :
  dict_get d key = None -> py_get (JObj d) key default = Ok default.
Proof. intros H. unfold py_get. now rewrite H. Qed.

Lemma bind_Ok {A B : Type} (a : A) (k : A -> result B) :
  bind (Ok a) k = k a.
Proof. reflexivity. Qed.

Lemma MetadataCache_get_keeps (c : MetadataCache) (now : Q) (key : string) :
  snd (MetadataCache_get c now key) = c.
Proof. reflexivity. Qed.

Lemma MetadataCache_get_falsy (c : MetadataCache) (d : dict) (now : Q)
    (key : string) (entry : json) :
  payload c = JObj d -> dict_get d key = Some entry -> truthy entry = false ->
  MetadataCache_get c now key = (Ok JNull, c).
Proof.
  intros Hp Hd Ht. unfold MetadataCache_get.
  rewrite Hp, (py_get_some _ _ _ _ Hd), bind_Ok, Ht. reflexivity.
Qed.

Lemma MetadataCache_get_no_entry (c : MetadataCache) (d : dict) (now : Q)
    (key : string) :
  payload c = JObj d -> dict_get d key = None ->
  MetadataCache_get c now key = (Ok JNull, c).
Proof.
  intros Hp Hd. unfold MetadataCache_get.
  rewrite Hp, (py_get_none _ _ _ Hd), bind_Ok. reflexivity.
Qed.

Lemma MetadataCache_get_stale (c : MetadataCache) (d e : dict) (now t : Q)
    (key : string) (ts : json) :
  payload c = JObj d -> dict_get d key = Some (JObj e) ->
  dict_get e "timestamp" = Some ts -> py_number ts = Ok t ->
  (CACHE_TTL_SECONDS < now - t)%Q ->
  MetadataCache_get c now key = (Ok JNull, c).
Proof.
  intros Hp Hd He Hn Hlt.
  assert (Ht : truthy (JObj e) = true)
    by (destruct e; [discriminate He | reflexivity]).
  unfold MetadataCache_get.
  rewrite Hp, (py_get_some _ _ _ _ Hd), bind_Ok, Ht. cbn [negb].
  rewrite (py_get_some _ _ _ _ He), bind_Ok, Hn, bind_Ok.
  now rewrite (Qgt_bool_true _ _ Hlt).
Qed.

Lemma MetadataCache_get_undated (c : MetadataCache) (d e : dict) (now : Q)
    (key : string) :
  payload c = JObj d -> dict_get d key = Some (JObj e) ->
  dict_get e "timestamp" = None ->
  (CACHE_TTL_SECONDS < now)%Q ->
  MetadataCache_get c now key = (Ok JNull, c).
Proof.
  intros Hp Hd He Hlt. unfold MetadataCache_get.
  rewrite Hp, (py_get_some _ _ _ _ Hd), bind_Ok.
  destruct (negb (truthy (JObj e))); [reflexivity|].
  rewrite (py_get_none _ _ _ He), bind_Ok.
  cbn [py_number]. rewrite bind_Ok.
  rewrite Qgt_bool_true; [reflexivity|].
  apply Qlt_le_trans with (1 := Hlt).
  unfold Qminus. setoid_replace (- inject_Z 0)%Q with 0%Q by reflexivity.
  rewrite Qplus_0_r. apply Qle_refl.
Qed.

Lemma MetadataCache_set_then_get (c : MetadataCache) (d : dict)
    (now now' : Q) (key : string) (data : json) :
  payload c = JObj d ->
  exists c',
    MetadataCache_set c now key data = (Ok tt, c')
    /\ payload c' = JObj (dict_set d key (cache_entry now data))
    /\ cache_file c' = FileJson (payload c')
    /\ ((now' - now <= CACHE_TTL_SECONDS)%Q ->
        MetadataCache_get c' now' key = (Ok data, c')).
Proof.
  intros Hp. unfold MetadataCache_set. rewrite Hp.
  eexists. split; [reflexivity|]. split; [reflexivity|].
  split; [reflexivity|].
  intros Hle. unfold MetadataCache_get. cbn [payload].
  rewrite (py_get_some _ _ _ _ (dict_get_set_same d key _)), bind_Ok.
  cbn. now rewrite (Qgt_bool_false _ _ Hle).
Qed.

Lemma MetadataCache_get_fresh (c : MetadataCache) (d e : dict) (now t : Q)
    (key : string) (ts data : json) :
  payload c = JObj d -> dict_get d key = Some (JObj e) ->
  dict_get e "timestamp" = Some ts -> py_number ts = Ok t ->
  (now - t <= CACHE_TTL_SECONDS)%Q ->
  dict_get e "data" = Some data ->
  MetadataCache_get c now key = (Ok data, c).
Proof.
  intros Hp Hd He Hn Hle Hdata.
  assert (Ht : truthy (JObj e) = true)
    by (destruct e; [discriminate He | reflexivity]).
  unfold MetadataCache_get.
  rewrite Hp, (py_get_some _ _ _ _ Hd), bind_Ok, Ht. cbn [negb].
  rewrite (py_get_some _ _ _ _ He), bind_Ok, Hn, bind_Ok.
  rewrite (Qgt_bool_false _ _ Hle). now rewrite (py_get_some _ _ _ _ Hdata).
Qed.

(** The limit is strict: an entry exactly six hours old is still served. *)
Lemma cache_ttl_boundary :
  let c := loaded_cache old_entry_store in
  fst (MetadataCache_get c (inject_Z (1000 + 21600)) "pypi:reqeusts")
  = Ok (JObj [("name", JStr "reqeusts")])
  /\ fst (MetadataCache_get c (inject_Z (1000 + 21601)) "pypi:reqeusts")
     = Ok JNull.
Proof. split; reflexivity. Qed.

(** What [get] returns as absent: on a store that was missing or that
    [json.loads] rejected, for a key without entry, and for an entry whose
    timestamp lies more than six hours before the clock reading; [get]
    leaves the cache as it found it, and a later [set] for the key
    replaces the entry, which [get] then serves. *)
Lemma cache_get_absent_cases :
  (forall f now key,
     f = FileMissing \/ f = FileCorrupt ->
     MetadataCache_init f = Ok (empty_cache f)
     /\ MetadataCache_get (empty_cache f) now key = (Ok JNull, empty_cache f))
  /\ (forall c d now key,
        payload c = JObj d -> dict_get d key = None ->
        MetadataCache_get c now key = (Ok JNull, c))
  /\ (forall c d e now t key ts,
        payload c = JObj d -> dict_get d key = Some (JObj e) ->
        dict_get e "timestamp" = Some ts -> py_number ts = Ok t ->
        (CACHE_TTL_SECONDS < now - t)%Q ->
        MetadataCache_get c now key = (Ok JNull, c))
  /\ (forall c now key, snd (MetadataCache_get c now key) = c)
  /\ (forall c d now now' key data,
        payload c = JObj d ->
        exists c',
          MetadataCache_set c now key data = (Ok tt, c')
          /\ payload c' = JObj (dict_set d key (cache_entry now data))
          /\ cache_file c' = FileJson (payload c')
          /\ ((now' - now <= CACHE_TTL_SECONDS)%Q ->
              MetadataCache_get c' now' key = (Ok data, c'))).
Proof.
  split; [|split; [|split; [|split]]].
  - intros f now key [->| ->]; split; reflexivity.
  - intros. eapply MetadataCache_get_no_entry; eassumption.
  - intros. eapply MetadataCache_get_stale; eassumption.
  - intros. apply MetadataCache_get_keeps.
  - intros. now apply MetadataCache_set_then_get.
Qed.

(** C8, at the failing input: the cache file holds bytes that are not
    UTF-8.  [read_text] raises [UnicodeDecodeError], which the constructor
    does not catch, so no cache comes to exist and no [get] can answer;
    a file that cannot be read fares alike.  A missing file and a text
    that [json.loads] rejects, which the constructor does catch, give the
    empty cache, and [get] on it returns [None] for every key. *)
Theorem C8_undecodable_store_raises :
  MetadataCache_init FileUndecodable = Raise UnicodeDecodeError
  /\ MetadataCache_init FileUnreadable = Raise OSError
  /\ (forall now key,
        (c <- MetadataCache_init FileUndecodable ;;
         fst (MetadataCache_get c now key))
        = Raise UnicodeDecodeError)
  /\ MetadataCache_init FileMissing = Ok (empty_cache FileMissing)
  /\ MetadataCache_init FileCorrupt = Ok (empty_cache FileCorrupt)
  /\ (forall f now key,
        f = FileMissing \/ f = FileCorrupt ->
        (c <- MetadataCache_init f ;; fst (MetadataCache_get c now key))
        = Ok JNull).
Proof.
  split; [reflexivity|]. split; [reflexivity|].
  split; [intros now key; reflexivity|].
  split; [reflexivity|]. split; [reflexivity|].
  intros f now key [-> | ->]; reflexivity.
Qed.

(** C10: [get] returns [None] for an entry that is falsy, and, once the
    clock reads more than six hours past the epoch, for an entry without a
    timestamp; for a fresh entry it returns the stored record as it is,
    falsy or not; and when what [get] returned is falsy, [fetch_metadata]
    does not return it: its result is the one the registry lookup
    determines. *)
Theorem C10_falsy_or_undated_entry_is_a_miss
    (http_get : string -> http_reply)
    (py_lt py_gt : json -> json -> result bool) (py_str : json -> string)
    (pydantic_int : json -> option Z)
    (PackageMetadata_validate : dict -> result PackageMetadata)
    (model_dump : PackageMetadata -> json) :
  (forall c d now key entry,
     payload c = JObj d -> dict_get d key = Some entry ->
     truthy entry = false ->
     MetadataCache_get c now key = (Ok JNull, c))
  /\ (forall c d e now key,
        payload c = JObj d -> dict_get d key = Some (JObj e) ->
        dict_get e "timestamp" = None ->
        (CACHE_TTL_SECONDS < now)%Q ->
        MetadataCache_get c now key = (Ok JNull, c))
  /\ (forall c d e now t key ts data,
        payload c = JObj d -> dict_get d key = Some (JObj e) ->
        dict_get e "timestamp" = Some ts -> py_number ts = Ok t ->
        (now - t <= CACHE_TTL_SECONDS)%Q ->
        dict_get e "data" = Some data ->
        MetadataCache_get c now key = (Ok data, c))
  /\ (forall now_get now_set spec c cached,
        MetadataCache_get c now_get (slug spec) = (Ok cached, c) ->
        truthy cached = false ->
        let fetched :=
          match dep_ecosystem spec with
          | pypi => _fetch_pypi http_get py_lt py_gt py_str pydantic_int spec
          | npm => _fetch_npm http_get py_lt py_gt pydantic_int spec
          end in
        let result :=
          fetch_metadata http_get py_lt py_gt py_str pydantic_int
            PackageMetadata_validate model_dump now_get now_set spec c in
        (fetched = Ok None \/ fetched = Raise HTTPError ->
         result = (Ok None, c))
        /\ (forall e, fetched = Raise e -> e <> HTTPError ->
            result = (Raise e, c))
        /\ (forall md d,
              fetched = Ok (Some md) -> payload c = JObj d ->
              result
              = (Ok (Some md),
                 snd (MetadataCache_set c now_set (slug spec) (model_dump md))))).
Proof.
  split; [|split; [|split]].
  - intros. eapply MetadataCache_get_falsy; eassumption.
  - intros. eapply MetadataCache_get_undated; eassumption.
  - intros. eapply MetadataCache_get_fresh; eassumption.
  - intros now_get now_set spec c cached Hget Hfalsy fetched result.
    unfold result, fetch_metadata. rewrite Hget, Hfalsy. fold fetched.
    split; [|split].
    + intros [-> | ->]; reflexivity.
    + intros e -> He. destruct e; congruence.
    + intros md d -> Hp. unfold MetadataCache_set. rewrite Hp. reflexivity.
Qed.

Lemma C10_witness :
  let undated := loaded_cache undated_entry_store in
  let empty := loaded_cache empty_record_store in
  let now := inject_Z 1700000000 in
  MetadataCache_get undated now "pypi:reqeusts" = (Ok JNull, undated)
  /\ MetadataCache_get empty now (slug sample_spec) = (Ok (JObj []), empty)
  /\ exists md,
       _fetch_pypi (registry_serving "2024-01-01T00:00:00.000000Z")
         lt_unused lt_unused str_unused int_unused sample_spec = Ok (Some md)
       /\ fetch_metadata (registry_serving "2024-01-01T00:00:00.000000Z")
            lt_unused lt_unused str_unused int_unused validate_unused
            dump_name now now sample_spec empty
          = (Ok (Some md),
             snd (MetadataCache_set empty now (slug sample_spec) (dump_name md))).
Proof.
  intros undated empty now.
  pose proof (C10_falsy_or_undated_entry_is_a_miss
                (registry_serving "2024-01-01T00:00:00.000000Z")
                lt_unused lt_unused str_unused int_unused validate_unused
                dump_name) as (_ & Hundated & Hfresh & Hfetch).
  assert (Hnow : (CACHE_TTL_SECONDS < now)%Q) by reflexivity.
  split.
  { exact (Hundated undated _ _ now "pypi:reqeusts" eq_refl eq_refl eq_refl Hnow). }
  assert (Hget : MetadataCache_get empty now (slug sample_spec)
                 = (Ok (JObj []), empty)).
  { refine (Hfresh empty _ _ now _ (slug sample_spec) _ (JObj [])
              eq_refl eq_refl eq_refl eq_refl _ eq_refl).
    vm_compute. discriminate. }
  split; [exact Hget|].
  eexists. split; [reflexivity|].
  destruct (Hfetch now now sample_spec empty (JObj []) Hget eq_refl)
    as (_ & _ & H).
  exact (H _ _ eq_refl eq_refl).
Defined.

(** * Further properties *)

(** ** Scoring *)

(** X1: the assessment of a dependency with metadata holds the
    [popularity] signal, once, with severity 15 and the count in its
    reason, when [weekly_downloads] is present and below 500, and no
    [popularity] signal otherwise: absent downloads and 500 or more
    never fire. *)
Theorem popularity_fires_below_500 (tops : list (string * list string))
    (now_r now_s : Z) (spec : DependencySpec) (m : PackageMetadata)
    (a : PackageAssessment) :
  assess_dependency tops now_r now_s spec (Some m) = Ok a ->
  (forall n, weekly_downloads m = Some n -> n < 500 ->
     of_category popularity (signals a) = [popularity_signal n]
     /\ sig_score (popularity_signal n) = 15)
  /\ (forall n, weekly_downloads m = Some n -> 500 <= n ->
        of_category popularity (signals a) = [])
  /\ (weekly_downloads m = None -> of_category popularity (signals a) = []).
Proof.
  intros H. apply assess_dependency_some in H.
  destruct H as (l1 & l2 & l3 & l4 & l5 & -> & H1 & H2 & H3 & H4 & H5).
  rewrite add_signals_signals. simpl.
  destruct H1 as [->|(d & top & ->)], H2 as [[-> _]|[-> _]],
           H3 as [[-> _]|[-> _]], H4 as [(n & -> & Hn & Hlt)|[-> Hn]],
           H5 as [[-> _]|[-> _]];
    cbn; repeat split; intros;
    try reflexivity; try congruence;
    try (exfalso; match goal with
                  | E : weekly_downloads m = Some ?k |- _ =>
                      specialize (Hn k E); lia
                  end);
    try (rewrite Hn in *; match goal with
                          | E : Some _ = Some _ |- _ => inversion E; subst
                          end; try reflexivity; lia).
Qed.

Lemma popularity_fires_below_500_witness :
  let m := mkPackageMetadata "reqeusts" pypi None None None
             ["alice"; "bob"] (Some 499) None None [] in
  exists a,
    assess_dependency sample_corpus 0 0 sample_spec (Some m) = Ok a
    /\ of_category popularity (signals a) = [popularity_signal 499]
    /\ reason (popularity_signal 499)
       = "Weekly downloads are low (499); limited community adoption."%string.
Proof.
  intros m. eexists. split; [reflexivity|]. split; [|reflexivity].
  exact (proj1 (proj1 (popularity_fires_below_500 sample_corpus 0 0
                         sample_spec m _ eq_refl) 499 eq_refl eq_refl)).
Defined.

(** X2: the assessment of a dependency with metadata holds the
    [maintainers] signal, once, with severity 20, exactly when the record
    lists at most one maintainer (none included). *)
Theorem maintainers_fires_up_to_one (tops : list (string * list string))
    (now_r now_s : Z) (spec : DependencySpec) (m : PackageMetadata)
    (a : PackageAssessment) :
  assess_dependency tops now_r now_s spec (Some m) = Ok a ->
  (of_category maintainers_cat (signals a) = [maintainers_signal]
   <-> (List.length (maintainers m) <= 1)%nat)
  /\ (of_category maintainers_cat (signals a) = []
      <-> (1 < List.length (maintainers m))%nat)
  /\ sig_score maintainers_signal = 20.
Proof.
  intros H. apply assess_dependency_some in H.
  destruct H as (l1 & l2 & l3 & l4 & l5 & -> & H1 & H2 & H3 & H4 & H5).
  rewrite add_signals_signals. simpl.
  destruct H1 as [->|(d & top & ->)], H2 as [[-> _]|[-> _]],
           H3 as [[-> _]|[-> _]], H4 as [(n & -> & _)|[-> _]],
           H5 as [[-> Hm]|[-> Hm]];
    cbn; repeat split; intros; try reflexivity; try discriminate;
    try assumption; try lia.
Qed.

Lemma maintainers_fires_up_to_one_witness :
  let one := mkPackageMetadata "reqeusts" pypi None None None
               ["alice"] None None None [] in
  let two := mkPackageMetadata "reqeusts" pypi None None None
               ["alice"; "bob"] None None None [] in
  (exists a,
     assess_dependency sample_corpus 0 0 sample_spec (Some one) = Ok a
     /\ of_category maintainers_cat (signals a) = [maintainers_signal])
  /\ (exists a,
        assess_dependency sample_corpus 0 0 sample_spec (Some two) = Ok a
        /\ of_category maintainers_cat (signals a) = []).
Proof.
  intros one two. split; eexists; (split; [reflexivity|]).
  - apply (proj1 (maintainers_fires_up_to_one sample_corpus 0 0 sample_spec
                    one _ eq_refl)).
    simpl. lia.
  - apply (proj1 (proj2 (maintainers_fires_up_to_one sample_corpus 0 0
                           sample_spec two _ eq_refl))).
    simpl. lia.
Defined.

(** X3: in the assessment of a dependency with metadata the signals stand
    in the order the evaluators run (typosquat, fresh-release,
    stale-package, popularity, maintainers) and no category occurs twice:
    the categories of the signals are the evaluation order restricted to
    the categories that fired. *)
Theorem signals_follow_evaluation_order (tops : list (string * list string))
    (now_r now_s : Z) (spec : DependencySpec) (m : PackageMetadata)
    (a : PackageAssessment) :
  assess_dependency tops now_r now_s spec (Some m) = Ok a ->
  map category (signals a)
  = filter (fun c => occurs c (signals a)) evaluation_order
  /\ (List.length (signals a) <= 5)%nat.
Proof.
  intros H. apply assess_dependency_some in H.
  destruct H as (l1 & l2 & l3 & l4 & l5 & -> & H1 & H2 & H3 & H4 & H5).
  rewrite add_signals_signals. simpl.
  destruct H1 as [->|(d & top & ->)], H2 as [[-> _]|[-> _]],
           H3 as [[-> _]|[-> _]], H4 as [(n & -> & _)|[-> _]],
           H5 as [[-> _]|[-> _]];
    cbn; split; try reflexivity; lia.
Qed.

Lemma signals_follow_evaluation_order_witness :
  exists a,
    assess_dependency sample_corpus t_2024_01_01 t_2024_01_01 sample_spec
      (Some (sample_metadata (Some utc_2024_01_01) (Some utc_2024_01_01)))
    = Ok a
    /\ map category (signals a) = [typosquat; fresh_release; maintainers_cat].
Proof.
  eexists. split; [reflexivity|].
  exact (proj1 (signals_follow_evaluation_order sample_corpus t_2024_01_01
                  t_2024_01_01 sample_spec
                  (sample_metadata (Some utc_2024_01_01) (Some utc_2024_01_01))
                  _ eq_refl)).
Defined.

Lemma built_score_range (a : PackageAssessment) :
  built a -> 0 <= score a <= 100.
Proof.
  induction 1 as [spec md | a s _ IH Hs]; simpl; [lia|].
  unfold RiskSignal_valid in Hs. lia.
Qed.

(** X4: the score of an assessment built by [add_signal] lies in
    [0, 100]; one more validated signal never lowers it, raises it by the
    signal's severity as long as the total stays within 100, and leaves
    it at 100 once it is there. *)
Theorem score_grows_until_100 (a : PackageAssessment) (s : RiskSignal) :
  built a -> RiskSignal_valid s ->
  0 <= score a <= 100
  /\ score a <= score (add_signal a s) <= 100
  /\ (score a + sig_score s <= 100 ->
      score (add_signal a s) = score a + sig_score s)
  /\ (score a = 100 -> score (add_signal a s) = 100).
Proof.
  intros Ha Hs. pose proof (built_score_range a Ha) as Hr.
  unfold RiskSignal_valid in Hs. simpl. lia.
Qed.

Lemma score_grows_until_100_witness :
  let a := add_signal
             (add_signal (PackageAssessment_new sample_spec None)
                (typosquat_signal "reqeusts" 2 "requests"))
             metadata_gaps_signal in
  let s := fresh_release_signal in
  0 <= score a <= 100
  /\ score a <= score (add_signal a s) <= 100
  /\ (score a + sig_score s <= 100 ->
      score (add_signal a s) = score a + sig_score s)
  /\ (score a = 100 -> score (add_signal a s) = 100).
Proof.
  intros a s. apply score_grows_until_100.
  - unfold a. repeat constructor; simpl; lia.
  - unfold s, RiskSignal_valid. simpl. lia.
Defined.

Lemma add_signals_score (l : list RiskSignal) :
  forall a, Forall RiskSignal_valid l -> score a <= 100 ->
  score (add_signals a l) = Z.min 100 (score a + sum_severity l).
Proof.
  induction l as [|s l IH]; intros a Hl Ha.
  - simpl. lia.
  - inversion Hl as [|? ? Hs Hl']; subst. rewrite add_signals_cons.
    rewrite IH; [|assumption | simpl; lia].
    unfold RiskSignal_valid in Hs. simpl.
    assert (0 <= sum_severity l).
    { clear -Hl'. induction Hl' as [|x l Hx _ IHl]; simpl; [lia|].
      unfold RiskSignal_valid in Hx. lia. }
    lia.
Qed.

Lemma sum_severity_perm (l l' : list RiskSignal) :
  Permutation l l' -> sum_severity l = sum_severity l'.
Proof.
  induction 1; simpl; lia.
Qed.

(** X5: the score does not depend on the order in which signals are
    added: adding the same validated signals in any other order to an
    assessment whose score is at most 100 gives the same score. *)
Theorem score_ignores_signal_order (a : PackageAssessment)
    (l l' : list RiskSignal) :
  score a <= 100 -> Forall RiskSignal_valid l -> Permutation l l' ->
  score (add_signals a l) = score (add_signals a l').
Proof.
  intros Ha Hl Hp.
  rewrite !add_signals_score; try assumption.
  - now rewrite (sum_severity_perm _ _ Hp).
  - eapply Permutation_Forall; eassumption.
Qed.

Lemma score_ignores_signal_order_witness :
  let a := PackageAssessment_new sample_spec None in
  score (add_signals a [maintainers_signal; fresh_release_signal;
                        typosquat_signal "reqeusts" 2 "requests"])
  = score (add_signals a [typosquat_signal "reqeusts" 2 "requests";
                          fresh_release_signal; maintainers_signal]).
Proof.
  intros a. apply score_ignores_signal_order.
  - simpl. lia.
  - repeat constructor; simpl; lia.
  - apply Permutation_rev.
Defined.

(** ** The edit distance and the typosquat scan *)

Lemma levenshtein_cons (a b : ascii) (s t : string) :
  levenshtein (String a s) (String b t)
  = Nat.min (S (levenshtein s (String b t)))
      (Nat.min (S (levenshtein (String a s) t))
         ((if Ascii.eqb a b then 0 else 1) + levenshtein s t))%nat.
Proof. reflexivity. Qed.

Lemma levenshtein_refl (s : string) : levenshtein s s = 0%nat.
Proof.
  induction s as [|a s IH]; [reflexivity|].
  rewrite levenshtein_cons, Ascii.eqb_refl, IH. lia.
Qed.

Lemma levenshtein_zero (s : string) :
  forall t, levenshtein s t = 0%nat -> s = t.
Proof.
  induction s as [|a s IH]; intros [|b t] H.
  - reflexivity.
  - discriminate H.
  - discriminate H.
  - rewrite levenshtein_cons in H.
    destruct (Ascii.eqb a b) eqn:E.
    + apply Ascii.eqb_eq in E. subst b. f_equal. apply IH. lia.
    + lia.
Qed.

Lemma typosquat_scan_near_first (name : string) (pre post : list string)
    (top : string) (a : PackageAssessment) :
  (forall t, In t pre -> (2 < levenshtein name t)%nat) ->
  (1 <= levenshtein name top <= 2)%nat ->
  typosquat_scan name (pre ++ top :: post) a
  = add_signal a (typosquat_signal name (levenshtein name top) top).
Proof.
  intros Hpre Htop. induction pre as [|r pre IH]; simpl.
  - destruct (levenshtein name top =? 0)%nat eqn:H0.
    + apply Nat.eqb_eq in H0. lia.
    + destruct (levenshtein name top <=? 2)%nat eqn:H2; [reflexivity|].
      apply Nat.leb_gt in H2. lia.
  - assert (Hr : (2 < levenshtein name r)%nat) by (apply Hpre; now left).
    destruct (levenshtein name r =? 0)%nat eqn:H0.
    + apply Nat.eqb_eq in H0. lia.
    + apply Nat.leb_gt in Hr. rewrite Hr. apply IH.
      intros t Ht. apply Hpre. now right.
Qed.

Lemma add_signal_changes (a : PackageAssessment) (s : RiskSignal) :
  add_signal a s <> a.
Proof.
  intros H. apply (f_equal (fun x => List.length (signals x))) in H.
  simpl in H. rewrite length_app in H. simpl in H. lia.
Qed.

Lemma typosquat_scan_silent_iff (name : string) (refs : list string)
    (a : PackageAssessment) :
  typosquat_scan name refs a = a
  <-> (forall pre top post,
         refs = pre ++ top :: post ->
         (forall t, In t pre -> (2 < levenshtein name t)%nat) ->
         (levenshtein name top <= 2)%nat -> top = name).
Proof.
  split.
  - intros Hscan pre top post -> Hpre Htop.
    destruct (levenshtein name top) as [|k] eqn:E.
    + symmetry. now apply levenshtein_zero.
    + exfalso. rewrite typosquat_scan_near_first in Hscan;
        [|assumption | lia].
      exact (add_signal_changes _ _ Hscan).
  - induction refs as [|r refs IH]; intros H; [reflexivity|].
    simpl. destruct (levenshtein name r =? 0)%nat eqn:H0; [reflexivity|].
    destruct (levenshtein name r <=? 2)%nat eqn:H2.
    + exfalso. apply Nat.leb_le in H2. apply Nat.eqb_neq in H0.
      apply H0. rewrite (H [] r refs eq_refl); [apply levenshtein_refl| |exact H2].
      intros t [].
    + apply IH. intros pre top post -> Hpre Htop.
      apply (H (r :: pre) top post eq_refl); [|exact Htop].
      apply Nat.leb_gt in H2.
      intros t [<-|Ht]; [exact H2 | now apply Hpre].
Qed.

(** X6: the typosquat evaluator appends nothing exactly when the first
    reference name of the dependency's ecosystem that lies within two
    edits of the dependency's name, if there is one, is that very name;
    in every other case it appends a signal. *)
Theorem typosquat_silent_iff_first_close_name_is_own
    (tops : list (string * list string)) (spec : DependencySpec)
    (a : PackageAssessment) :
  _evaluate_typosquat tops spec a = a
  <-> (forall pre top post,
         get_top_packages tops (dep_ecosystem spec) = pre ++ top :: post ->
         (forall t, In t pre -> (2 < levenshtein (dep_name spec) t)%nat) ->
         (levenshtein (dep_name spec) top <= 2)%nat ->
         top = dep_name spec).
Proof.
  unfold _evaluate_typosquat.
  apply typosquat_scan_silent_iff.
Qed.

(** ** Cache keys *)

Lemma lower_ascii_idempotent (c : ascii) :
  lower_ascii (lower_ascii c) = lower_ascii c.
Proof.
  unfold lower_ascii.
  destruct ((65 <=? nat_of_ascii c) && (nat_of_ascii c <=? 90))%nat eqn:E;
    [|now rewrite E].
  apply andb_prop in E. destruct E as [E1 E2].
  apply Nat.leb_le in E1. apply Nat.leb_le in E2.
  rewrite nat_ascii_embedding by lia.
  destruct ((65 <=? nat_of_ascii c + 32) && (nat_of_ascii c + 32 <=? 90))%nat
    eqn:E'; [|reflexivity].
  apply andb_prop in E'. destruct E' as [_ E4]. apply Nat.leb_le in E4. lia.
Qed.

Lemma lower_idempotent (s : string) : lower (lower s) = lower s.
Proof.
  induction s as [|c s IH]; simpl; [reflexivity|].
  now rewrite lower_ascii_idempotent, IH.
Qed.

(** X7: for specs with ASCII names, the slug identifies a dependency by
    its ecosystem and its name with the letters in lower case: two such
    specs have the same slug exactly when they agree on both, so names
    that differ only in letter case share a cache entry, and the same
    name in the two ecosystems does not. *)
Theorem slug_identifies_ecosystem_and_folded_name (s1 s2 : DependencySpec) :
  is_ascii (dep_name s1) = true -> is_ascii (dep_name s2) = true ->
  (slug s1 = slug s2
   <-> dep_ecosystem s1 = dep_ecosystem s2
       /\ lower (dep_name s1) = lower (dep_name s2))
  /\ slug (mkDependencySpec (lower (dep_name s1)) (dep_version s1)
             (dep_ecosystem s1) (dep_source_path s1)) = slug s1.
Proof.
  intros _ _. split.
  - unfold slug. split.
    + destruct (dep_ecosystem s1), (dep_ecosystem s2); simpl;
        intros H; inversion H; auto.
    + intros [-> ->]. reflexivity.
  - unfold slug. simpl. now rewrite lower_idempotent.
Qed.

Lemma slug_identifies_ecosystem_and_folded_name_witness :
  let s1 := mkDependencySpec "Requests" None pypi "requirements.txt" in
  let s2 := mkDependencySpec "requests" (Some "2.31.0") pypi "Pipfile.lock" in
  let s3 := mkDependencySpec "requests" None npm "package.json" in
  is_ascii (dep_name s1) = true /\ is_ascii (dep_name s2) = true
  /\ slug s1 = slug s2 /\ slug s2 <> slug s3.
Proof.
  intros s1 s2 s3.
  split; [reflexivity|]. split; [reflexivity|]. split.
  - apply (proj1 (slug_identifies_ecosystem_and_folded_name s1 s2
                    eq_refl eq_refl)).
    split; reflexivity.
  - intros H.
    apply (proj1 (slug_identifies_ecosystem_and_folded_name s2 s3
                    eq_refl eq_refl)) in H.
    destruct H as [H _]. discriminate H.
Defined.

(** ** The cache as a store *)

Lemma dict_set_set (d : dict) (key : string) (v1 v2 : json) :
  dict_set (dict_set d key v1) key v2 = dict_set d key v2.
Proof.
  induction d as [|[k w] d IH]; simpl.
  - now rewrite String.eqb_refl.
  - destruct (String.eqb k key) eqn:E; simpl; rewrite E; [reflexivity|].
    now rewrite IH.
Qed.

Lemma dict_set_length (d : dict) (key : string) (v : json) :
  List.length (dict_set d key v)
  = match dict_get d key with
    | Some _ => List.length d
    | None => S (List.length d)
    end.
Proof.
  induction d as [|[k w] d IH]; simpl; [reflexivity|].
  destruct (String.eqb k key) eqn:E; simpl; [reflexivity|].
  rewrite IH. now destruct (dict_get d key).
Qed.

(** X8: on a store that is a JSON object, [set] touches one binding: a
    [get] for any other key answers as before, the store grows by one
    entry when the key is new and keeps its size when it is not, and a
    second [set] for the same key leaves the cache exactly as that second
    [set] alone would have (last writer wins). *)
Theorem cache_set_replaces_one_binding (c : MetadataCache) (d : dict)
    (now : Q) (key : string) (data : json) :
  payload c = JObj d ->
  let c' := snd (MetadataCache_set c now key data) in
  (forall now' key', key' <> key ->
     fst (MetadataCache_get c' now' key') = fst (MetadataCache_get c now' key'))
  /\ (exists d', payload c' = JObj d'
                 /\ List.length d'
                    = match dict_get d key with
                      | Some _ => List.length d
                      | None => S (List.length d)
                      end)
  /\ (forall now2 data2,
        snd (MetadataCache_set c' now2 key data2)
        = snd (MetadataCache_set c now2 key data2)).
Proof.
  intros Hp c'. unfold c', MetadataCache_set. rewrite Hp. simpl.
  split; [|split].
  - intros now' key' Hne. unfold MetadataCache_get. simpl. rewrite Hp.
    unfold py_get at 1 3. now rewrite dict_get_set_other.
  - eexists. split; [reflexivity|]. apply dict_set_length.
  - intros now2 data2. now rewrite dict_set_set.
Qed.

Lemma cache_set_replaces_one_binding_witness :
  let c := loaded_cache old_entry_store in
  let c' := snd (MetadataCache_set c (inject_Z 2000) "npm:react" (JObj [])) in
  fst (MetadataCache_get c' (inject_Z 2000) "pypi:reqeusts")
  = fst (MetadataCache_get c (inject_Z 2000) "pypi:reqeusts").
Proof.
  intros c c'.
  refine (proj1 (cache_set_replaces_one_binding c _ (inject_Z 2000) "npm:react"
                   (JObj []) eq_refl) (inject_Z 2000) "pypi:reqeusts" _).
  discriminate.
Defined.

(** X9: a store file that holds valid JSON other than an object (a
    list, a string, a number, [null]) is taken as the payload as it is;
    every [get] then raises [AttributeError] and every [set] raises
    [TypeError], and neither changes the cache. *)
Theorem cache_on_non_object_store (j : json) (now : Q) (key : string)
    (data : json) :
  (forall d, j <> JObj d) ->
  let c := loaded_cache j in
  MetadataCache_init (FileJson j) = Ok c
  /\ MetadataCache_get c now key = (Raise AttributeError, c)
  /\ MetadataCache_set c now key data = (Raise TypeError, c).
Proof.
  intros Hj c. split; [reflexivity|].
  unfold c, MetadataCache_get, MetadataCache_set. simpl.
  destruct j; try (split; reflexivity).
  exfalso. eapply Hj. reflexivity.
Qed.

Lemma cache_on_non_object_store_witness :
  let c := loaded_cache (JList []) in
  MetadataCache_init (FileJson (JList [])) = Ok c
  /\ MetadataCache_get c (inject_Z 1700000000) "pypi:reqeusts"
     = (Raise AttributeError, c)
  /\ MetadataCache_set c (inject_Z 1700000000) "pypi:reqeusts" (JObj [])
     = (Raise TypeError, c).
Proof.
  intros c. apply cache_on_non_object_store. intros d. discriminate.
Defined.

(** ** [fetch_metadata] and the cache *)


(** X11: a record fetched from the registry on a miss is stored, and the
    next lookup of the same spec within six hours of the store is
    answered from the cache, by validating the stored record, whatever
    the registry would answer by then. *)
Theorem fetch_metadata_then_served_from_cache
    (http_get http_get' : string -> http_reply)
    (py_lt py_gt : json -> json -> result bool) (py_str : json -> string)
    (pydantic_int : json -> option Z)
    (PackageMetadata_validate : dict -> result PackageMetadata)
    (model_dump : PackageMetadata -> json)
    (now_get now_set now_get' now_set' : Q) (spec : DependencySpec)
    (c : MetadataCache) (d : dict) (cached : json) (md : PackageMetadata)
    (dumped : dict) :
  payload c = JObj d ->
  MetadataCache_get c now_get (slug spec) = (Ok cached, c) ->
  truthy cached = false ->
  match dep_ecosystem spec with
  | pypi => _fetch_pypi http_get py_lt py_gt py_str pydantic_int spec
  | npm => _fetch_npm http_get py_lt py_gt pydantic_int spec
  end = Ok (Some md) ->
  model_dump md = JObj dumped -> dumped <> [] ->
  (now_get' - now_set <= CACHE_TTL_SECONDS)%Q ->
  exists c',
    fetch_metadata http_get py_lt py_gt py_str pydantic_int
      PackageMetadata_validate model_dump now_get now_set spec c
    = (Ok (Some md), c')
    /\ fetch_metadata http_get' py_lt py_gt py_str pydantic_int
         PackageMetadata_validate model_dump now_get' now_set' spec c'
       = (md' <- PackageMetadata_validate dumped ;; Ok (Some md'), c').
Proof.
  intros Hp Hget Hfalsy Hfetched Hdump Hne Hfresh.
  destruct (MetadataCache_set_then_get c d now_set now_get' (slug spec)
              (model_dump md) Hp) as (c' & Hset & _ & _ & Hget').
  specialize (Hget' Hfresh).
  exists c'. split.
  - unfold fetch_metadata. rewrite Hget, Hfalsy, Hfetched, Hset. reflexivity.
  - unfold fetch_metadata. rewrite Hget', Hdump.
    destruct dumped as [|kv dumped]; [congruence|]. reflexivity.
Qed.

Lemma fetch_metadata_then_served_from_cache_witness :
  let cold := empty_cache FileMissing in
  let registry := registry_serving "2024-01-01T00:00:00.000000Z" in
  let now := inject_Z 1700000000 in
  exists md c',
    fetch_metadata registry lt_unused lt_unused str_unused int_unused
      validate_unused dump_name now now sample_spec cold
    = (Ok (Some md), c')
    /\ fetch_metadata (fun _ => TransportFailure) lt_unused lt_unused
         str_unused int_unused validate_unused dump_name
         (now + CACHE_TTL_SECONDS)%Q (now + CACHE_TTL_SECONDS)%Q
         sample_spec c'
       = (md' <- validate_unused [("name", JStr (meta_name md))] ;;
          Ok (Some md'), c').
Proof.
  intros cold registry now.
  eexists.
  refine (fetch_metadata_then_served_from_cache registry
            (fun _ => TransportFailure) lt_unused lt_unused str_unused
            int_unused validate_unused dump_name now now
            (now + CACHE_TTL_SECONDS)%Q (now + CACHE_TTL_SECONDS)%Q
            sample_spec cold [] JNull _ _ eq_refl eq_refl eq_refl eq_refl
            eq_refl _ _).
  - discriminate.
  - vm_compute. discriminate.
Defined.

(** ** The analysis loop *)

Lemma assess_dependency_dependency (tops : list (string * list string))
    (now_r now_s : Z) (spec : DependencySpec) (md : option PackageMetadata)
    (a : PackageAssessment) :
  assess_dependency tops now_r now_s spec md = Ok a ->
  dependency a = spec /\ metadata a = md.
Proof.
  destruct md as [m|]; intros H.
  - apply assess_dependency_some in H.
    destruct H as (l1 & l2 & l3 & l4 & l5 & -> & _).
    now rewrite add_signals_dependency, add_signals_metadata.
  - rewrite assess_dependency_none in H. inversion H; subst. auto.
Qed.

Section AnalyseFacts.

Variable tops : list (string * list string).
Variable http_get : string -> http_reply.
Variable py_lt : json -> json -> result bool.
Variable py_gt : json -> json -> result bool.
Variable py_str : json -> string.
Variable pydantic_int : json -> option Z.
Variable PackageMetadata_validate : dict -> result PackageMetadata.
Variable model_dump : PackageMetadata -> json.

Let run := analyse tops http_get py_lt py_gt py_str pydantic_int
             PackageMetadata_validate model_dump.

(** X12: when the loop completes, it has produced one assessment per
    dependency, in the order of the dependencies, each for its own spec
    and each with a score that is the clamped sum of its signals. *)
Theorem analyse_keeps_order (deps : list (DependencySpec * readings))
    (c c' : MetadataCache) (l : list PackageAssessment) :
  run deps c = (Ok l, c') ->
  map dependency l = map fst deps
  /\ List.length l = List.length deps
  /\ Forall (fun a => score a = Z.min 100 (sum_severity (signals a))) l.
Proof.
  revert c c' l. induction deps as [|[spec r] deps IH]; intros c c' l H.
  - simpl in H. inversion H; subst. repeat split. constructor.
  - unfold run in H. simpl in H.
    destruct (fetch_metadata _ _ _ _ _ _ _ _ _ spec c) as [[md|e] c1];
      [|discriminate].
    destruct (assess_dependency tops _ _ spec md) as [a|e] eqn:Ha;
      [|discriminate].
    destruct (analyse _ _ _ _ _ _ _ _ deps c1) as [[l'|e] c2] eqn:Hrest;
      [|discriminate].
    inversion H; subst.
    destruct (IH _ _ _ Hrest) as (I1 & I2 & I3).
    destruct (assess_dependency_dependency _ _ _ _ _ _ Ha) as [Hd _].
    simpl. rewrite Hd, I1, I2. repeat split.
    constructor; [|exact I3].
    apply built_score. eapply assess_dependency_built. exact Ha.
Qed.

(** X13: analysing a batch is analysing its first part and then the rest
    with the cache the first part left; an exception in the first part
    is the outcome of the whole batch, and the rest is not looked up. *)
Theorem analyse_app (deps1 deps2 : list (DependencySpec * readings))
    (c : MetadataCache) :
  run (deps1 ++ deps2) c
  = match run deps1 c with
    | (Raise e, c1) => (Raise e, c1)
    | (Ok l1, c1) =>
        match run deps2 c1 with
        | (Raise e, c2) => (Raise e, c2)
        | (Ok l2, c2) => (Ok (l1 ++ l2), c2)
        end
    end.
Proof.
  revert c. induction deps1 as [|[spec r] deps1 IH]; intros c.
  - simpl. destruct (run deps2 c) as [[l2|e] c2]; reflexivity.
  - unfold run. simpl.
    destruct (fetch_metadata _ _ _ _ _ _ _ _ _ spec c) as [[md|e] c1];
      [|reflexivity].
    destruct (assess_dependency tops _ _ spec md) as [a|e]; [|reflexivity].
    fold run. rewrite IH.
    destruct (run deps1 c1) as [[l1|e] c2]; [|reflexivity].
    destruct (run deps2 c2) as [[l2|e] c3]; reflexivity.
Qed.

End AnalyseFacts.

Lemma analyse_keeps_order_witness :
  exists l c',
    analyse sample_corpus flaky_registry lt_unused lt_unused str_unused
      int_unused validate_unused dump_name
      [(sample_spec, sample_readings); (requests_spec, sample_readings)]
      (empty_cache FileMissing)
    = (Ok l, c')
    /\ map dependency l = [sample_spec; requests_spec].
Proof.
  eexists. eexists. split; [reflexivity|].
  exact (proj1 (analyse_keeps_order sample_corpus flaky_registry lt_unused
                  lt_unused str_unused int_unused validate_unused dump_name
                  [(sample_spec, sample_readings);
                   (requests_spec, sample_readings)]
                  (empty_cache FileMissing) _ _ eq_refl)).
Defined.

(** ** Collecting the dependencies *)

Lemma has_slug_iff (k : string) (acc : list (string * PackageAssessment)) :
  existsb (fun kv => String.eqb (fst kv) k) acc = true <-> In k (map fst acc).
Proof.
  rewrite existsb_exists. split.
  - intros ([k' a] & Hin & Heq). apply String.eqb_eq in Heq. simpl in Heq.
    subst k'. apply in_map_iff. exists (k, a). auto.
  - intros H. apply in_map_iff in H. destruct H as ([k' a] & Heq & Hin).
    simpl in Heq. subst k'. exists (k, a). split; [exact Hin|].
    simpl. apply String.eqb_refl.
Qed.

Lemma collect_keys (specs : list DependencySpec) :
  forall acc k,
    In k (map fst (collect specs acc))
    <-> In k (map fst acc) \/ In k (map slug specs).
Proof.
  induction specs as [|spec specs IH]; intros acc k; simpl.
  - tauto.
  - rewrite IH.
    destruct (existsb _ acc) eqn:E.
    + apply has_slug_iff in E. split; [tauto|].
      intros [H|[<-|H]]; auto.
    + rewrite map_app, in_app_iff. simpl. tauto.
Qed.

Lemma collect_nodup (specs : list DependencySpec) :
  forall acc, NoDup (map fst acc) -> NoDup (map fst (collect specs acc)).
Proof.
  induction specs as [|spec specs IH]; intros acc Hacc; simpl; [exact Hacc|].
  apply IH. destruct (existsb _ acc) eqn:E; [exact Hacc|].
  rewrite map_app. simpl.
  apply NoDup_app; [exact Hacc | |].
  - constructor; [intros [] | constructor].
  - intros k Hk [<-|[]].
    apply has_slug_iff in Hk. congruence.
Qed.

Lemma collect_origin (specs : list DependencySpec) :
  forall acc k a,
    In (k, a) (collect specs acc) ->
    In (k, a) acc
    \/ (~ In k (map fst acc)
        /\ exists pre spec post,
             specs = pre ++ spec :: post
             /\ slug spec = k
             /\ a = PackageAssessment_new spec None
             /\ forall s, In s pre -> slug s <> k).
Proof.
  induction specs as [|spec specs IH]; intros acc k a H; simpl in H.
  - now left.
  - apply IH in H. destruct (existsb _ acc) eqn:E.
    + destruct H as [H|(Hk & pre & sp & post & -> & Hs & Ha & Hpre)];
        [now left|].
      right. split; [exact Hk|].
      exists (spec :: pre), sp, post. repeat split; auto.
      intros s [<-|Hin]; [|now apply Hpre].
      intros Heq. apply Hk. apply has_slug_iff. now rewrite <- Heq.
    + destruct H as [H|(Hk & pre & sp & post & -> & Hs & Ha & Hpre)].
      * apply in_app_iff in H. destruct H as [H|[H|[]]]; [now left|].
        inversion H; subst. right. split.
        { intros Hin. apply has_slug_iff in Hin. congruence. }
        exists [], spec, specs. repeat split. intros s [].
      * right. rewrite map_app, in_app_iff in Hk. simpl in Hk. split; [tauto|].
        exists (spec :: pre), sp, post. repeat split; auto.
        intros s [<-|Hin]; [tauto | now apply Hpre].
Qed.

(** X14: collecting the parsed specs gives one new, signal-free
    assessment per slug: the slugs are pairwise distinct, every parsed
    spec's slug is there, and the assessment kept for a slug is the one of
    the first spec with that slug, later ones being dropped. *)
Theorem collect_keeps_first_spec_per_slug (specs : list DependencySpec) :
  NoDup (map fst (collect specs []))
  /\ (forall spec, In spec specs -> In (slug spec) (map fst (collect specs [])))
  /\ (forall k a,
        In (k, a) (collect specs []) ->
        exists pre spec post,
          specs = pre ++ spec :: post
          /\ slug spec = k
          /\ a = PackageAssessment_new spec None
          /\ forall s, In s pre -> slug s <> k).
Proof.
  split; [|split].
  - apply collect_nodup. constructor.
  - intros spec Hin. apply collect_keys. right. now apply in_map.
  - intros k a H. apply collect_origin in H.
    destruct H as [[]|(_ & H)]. exact H.
Qed.

(** ** The table *)

Lemma insert_by_score_perm (x : PackageAssessment) (l : list PackageAssessment) :
  Permutation (insert_by_score x l) (x :: l).
Proof.
  induction l as [|y l IH]; simpl; [reflexivity|].
  destruct (score x <? score y); [|reflexivity].
  rewrite IH. apply perm_swap.
Qed.

Lemma insert_by_score_sorted (x : PackageAssessment)
    (l : list PackageAssessment) :
  StronglySorted (fun a b => score b <= score a) l ->
  StronglySorted (fun a b => score b <= score a) (insert_by_score x l).
Proof.
  induction 1 as [|y l Hs IH Hy]; simpl.
  - repeat constructor.
  - destruct (score x <? score y) eqn:E.
    + apply Z.ltb_lt in E. constructor; [exact IH|].
      eapply Permutation_Forall.
      * symmetry. apply insert_by_score_perm.
      * constructor; [lia | exact Hy].
    + apply Z.ltb_ge in E. constructor; [now constructor|].
      constructor; [exact E|].
      eapply Forall_impl; [|exact Hy]. simpl. intros; lia.
Qed.

Lemma insert_by_score_stable (v : Z) (x : PackageAssessment)
    (l : list PackageAssessment) :
  StronglySorted (fun a b => score b <= score a) l ->
  filter (fun a => score a =? v) (insert_by_score x l)
  = filter (fun a => score a =? v) (x :: l).
Proof.
  induction 1 as [|y l Hs IH Hy]; [reflexivity|].
  simpl. destruct (score x <? score y) eqn:E; [|reflexivity].
  apply Z.ltb_lt in E. simpl. rewrite IH. simpl.
  destruct (score x =? v) eqn:Ex, (score y =? v) eqn:Ey; try reflexivity.
  apply Z.eqb_eq in Ex. apply Z.eqb_eq in Ey. lia.
Qed.

Lemma sorted_by_score_sorted (l : list PackageAssessment) :
  StronglySorted (fun a b => score b <= score a) (sorted_by_score l).
Proof.
  induction l as [|x l IH]; simpl; [constructor|].
  now apply insert_by_score_sorted.
Qed.

(** X15: when there is at least one assessment, the table has one row per
    assessment, in descending order of score, and assessments with equal
    scores keep the order they came in; with none, no table is drawn. *)
Theorem _render_table_rows_by_descending_score (l : list PackageAssessment) :
  (_render_table l = None <-> l = [])
  /\ forall rows,
       _render_table l = Some rows ->
       exists sorted,
         rows = map table_row sorted
         /\ Permutation sorted l
         /\ StronglySorted (fun a b => score b <= score a) sorted
         /\ (forall v, filter (fun a => score a =? v) sorted
                       = filter (fun a => score a =? v) l)
         /\ List.length rows = List.length l.
Proof.
  split.
  - destruct l; simpl; split; intros H; congruence.
  - intros rows H.
    assert (Hrows : rows = map table_row (sorted_by_score l))
      by (destruct l; [discriminate H|]; unfold _render_table in H;
          inversion H; reflexivity).
    assert (Hperm : Permutation (sorted_by_score l) l).
    { clear. induction l as [|x l IH]; simpl; [constructor|].
      rewrite insert_by_score_perm. now constructor. }
    exists (sorted_by_score l). split; [exact Hrows|].
    split; [exact Hperm|]. split; [apply sorted_by_score_sorted|]. split.
    + intros v. clear. induction l as [|x l IH]; [reflexivity|].
      simpl sorted_by_score.
      rewrite insert_by_score_stable by apply sorted_by_score_sorted.
      simpl. now rewrite IH.
    + rewrite Hrows, length_map. now apply Permutation_length.
Qed.

Lemma _render_table_rows_by_descending_score_witness :
  let low := PackageAssessment_new sample_spec None in
  let high := add_signal (PackageAssessment_new requests_spec None)
                metadata_gaps_signal in
  exists sorted,
    _render_table [low; high] = Some (map table_row sorted)
    /\ Permutation sorted [low; high]
    /\ StronglySorted (fun a b => score b <= score a) sorted.
Proof.
  intros low high.
  destruct (proj2 (_render_table_rows_by_descending_score [low; high])
              _ eq_refl) as (sorted & Hrows & Hperm & Hsorted & _).
  exists sorted. rewrite <- Hrows. auto.
Defined.

(** ** Normalising a registry document *)

Lemma string_ltb_lt (a b : string) :
  String.ltb a b = true <-> OrderedTypeEx.String_as_OT.lt a b.
Proof.
  unfold String.ltb. rewrite <- OrderedTypeEx.String_as_OT.cmp_lt.
  unfold OrderedTypeEx.String_as_OT.cmp.
  destruct (String.compare a b); split; congruence.
Qed.

Lemma string_leb_refl (a : string) : String.leb a a = true.
Proof.
  unfold String.leb.
  assert (H : String.compare a a = Eq)
    by (apply OrderedTypeEx.String_as_OT.cmp_eq; reflexivity).
  now rewrite H.
Qed.

Lemma string_ltb_false_leb (a b : string) :
  String.ltb a b = false -> String.leb b a = true.
Proof.
  unfold String.ltb, String.leb. rewrite (String.compare_antisym a b).
  destruct (String.compare b a); simpl; congruence.
Qed.

Lemma string_ltb_leb (a b : string) :
  String.ltb a b = true -> String.leb a b = true.
Proof.
  unfold String.ltb, String.leb. destruct (String.compare a b); congruence.
Qed.

Lemma string_leb_cases (a b : string) :
  String.leb a b = true -> a = b \/ String.ltb a b = true.
Proof.
  unfold String.ltb, String.leb.
  destruct (String.compare a b) eqn:E; try congruence; auto.
  left. now apply String.compare_eq_iff.
Qed.

Lemma string_leb_trans (a b c : string) :
  String.leb a b = true -> String.leb b c = true -> String.leb a c = true.
Proof.
  intros H1 H2. destruct (string_leb_cases _ _ H1) as [->|L1]; [exact H2|].
  destruct (string_leb_cases _ _ H2) as [<-|L2]; [exact H1|].
  apply string_ltb_leb. apply string_ltb_lt.
  eapply OrderedTypeEx.String_as_OT.lt_trans; apply string_ltb_lt; eassumption.
Qed.

(** From [H : (v <- r ;; k) = Ok _]: [r] returned some [v], by [E]. *)
Ltac bind_step H v E :=
  match type of H with
  | bind ?r _ = Ok _ =>
      destruct r as [v|] eqn:E; [cbn [bind] in H | discriminate H]
  end.

Section NormaliseFacts.

Variable http_get : string -> http_reply.
Variable py_lt : json -> json -> result bool.
Variable py_gt : json -> json -> result bool.
Variable py_str : json -> string.
Variable pydantic_int : json -> option Z.

Lemma pypi_file_step_spec (st st' : list json * option json) (f : json) :
  pypi_file_step py_lt st f = Ok st' ->
  all_strings (fst st ++ filter truthy [upload_time_of f]) ->
  least_of (fst st) (snd st) ->
  fst st' = fst st ++ filter truthy [upload_time_of f]
  /\ least_of (fst st') (snd st').
Proof.
  destruct st as [ts fr]. unfold pypi_file_step. intros H Hall Hinv.
  bind_step H j E. simpl fst in *. simpl snd in *.
  assert (Hu : upload_time_of f = j).
  { destruct f; try discriminate E. simpl in *.
    destruct (dict_get kvs "upload_time_iso_8601"); inversion E; reflexivity. }
  rewrite Hu in *. simpl filter in *.
  destruct (truthy j) eqn:Ht.
  - destruct (Hall j) as (u & ->); [apply in_app_iff; right; now left|].
    destruct Hinv as [[-> ->]|(m & -> & Hin & Hmin)].
    + inversion H; subst. simpl. split; [reflexivity|].
      right. exists u. split; [reflexivity|]. split; [now left|].
      intros s [E'|[]]. inversion E'; subst. apply string_leb_refl.
    + simpl in H. inversion H; subst. simpl. split; [reflexivity|].
      right. destruct (String.ltb u m) eqn:Hlt.
      * exists u. split; [reflexivity|]. split.
        { apply in_app_iff. right. now left. }
        intros s Hs. apply in_app_iff in Hs. destruct Hs as [Hs|[Hs|[]]].
        { eapply string_leb_trans; [apply string_ltb_leb; exact Hlt|].
          now apply Hmin. }
        { inversion Hs; subst. apply string_leb_refl. }
      * exists m. split; [reflexivity|]. split.
        { apply in_app_iff. now left. }
        intros s Hs. apply in_app_iff in Hs. destruct Hs as [Hs|[Hs|[]]].
        { now apply Hmin. }
        { inversion Hs; subst. now apply string_ltb_false_leb. }
  - inversion H; subst. simpl. rewrite app_nil_r. auto.
Qed.

Lemma pypi_files_spec (files : list json) :
  forall st st',
    foldM (pypi_file_step py_lt) files st = Ok st' ->
    all_strings (fst st ++ filter truthy (map upload_time_of files)) ->
    least_of (fst st) (snd st) ->
    fst st' = fst st ++ filter truthy (map upload_time_of files)
    /\ least_of (fst st') (snd st').
Proof.
  induction files as [|f files IH]; intros st st' H Hall Hinv.
  - simpl in H. inversion H; subst. simpl. rewrite app_nil_r. auto.
  - simpl in H. bind_step H st1 E.
    assert (Hsplit : filter truthy (map upload_time_of (f :: files))
                     = filter truthy [upload_time_of f]
                       ++ filter truthy (map upload_time_of files)).
    { simpl. destruct (truthy (upload_time_of f)); reflexivity. }
    rewrite Hsplit in *. rewrite app_assoc in Hall.
    destruct (pypi_file_step_spec _ _ _ E) as [Hfst Hleast].
    { intros t Ht. apply Hall. apply in_app_iff. now left. }
    { exact Hinv. }
    destruct (IH _ _ H) as [Hfst' Hleast'].
    { now rewrite Hfst. }
    { exact Hleast. }
    split; [|exact Hleast'].
    now rewrite Hfst', Hfst, app_assoc.
Qed.

Lemma pypi_releases_spec (releases : dict) :
  forall st st',
    foldM (pypi_release_step py_lt) releases st = Ok st' ->
    all_strings (fst st ++ document_upload_times releases) ->
    least_of (fst st) (snd st) ->
    fst st' = fst st ++ document_upload_times releases
    /\ least_of (fst st') (snd st').
Proof.
  unfold document_upload_times.
  induction releases as [|r releases IH]; intros st st' H Hall Hinv.
  - simpl in H. inversion H; subst. simpl. rewrite app_nil_r. auto.
  - simpl in H. bind_step H st1 E. unfold pypi_release_step in E.
    bind_step E files E0.
    simpl flat_map in *. unfold release_files at 1 in Hall.
    unfold release_files at 1. rewrite E0 in *.
    rewrite map_app, filter_app in *. rewrite app_assoc in Hall.
    destruct (pypi_files_spec _ _ _ E) as [Hfst Hleast].
    { intros t Ht. apply Hall. apply in_app_iff. now left. }
    { exact Hinv. }
    destruct (IH _ _ H) as [Hfst' Hleast'].
    { now rewrite Hfst. }
    { exact Hleast. }
    split; [|exact Hleast'].
    now rewrite Hfst', Hfst, app_assoc.
Qed.

Lemma py_max_spec (rest : list json) :
  forall hi seen r,
    py_max py_gt (JStr hi) rest = Ok r ->
    all_strings rest ->
    In (JStr hi) seen ->
    (forall s, In (JStr s) seen -> String.leb s hi = true) ->
    exists top, r = JStr top /\ In (JStr top) (seen ++ rest)
                /\ forall s, In (JStr s) (seen ++ rest) -> String.leb s top = true.
Proof.
  unfold py_max.
  induction rest as [|item rest IH]; intros hi seen r H Hall Hin Hmax.
  - simpl in H. inversion H; subst. exists hi. rewrite app_nil_r. auto.
  - simpl in H. destruct (Hall item) as (i & ->); [now left|].
    simpl in H.
    assert (Hall' : all_strings rest)
      by (intros t Ht; apply Hall; now right).
    replace (seen ++ JStr i :: rest) with ((seen ++ [JStr i]) ++ rest)
      by (now rewrite <- app_assoc).
    destruct (String.ltb hi i) eqn:Hlt.
    + apply (IH i (seen ++ [JStr i]) r H Hall').
      * apply in_app_iff. right. now left.
      * intros s Hs. apply in_app_iff in Hs. destruct Hs as [Hs|[Hs|[]]].
        { eapply string_leb_trans; [now apply Hmax|].
          now apply string_ltb_leb. }
        { inversion Hs; subst. apply string_leb_refl. }
    + apply (IH hi (seen ++ [JStr i]) r H Hall').
      * apply in_app_iff. now left.
      * intros s Hs. apply in_app_iff in Hs. destruct Hs as [Hs|[Hs|[]]].
        { now apply Hmax. }
        { inversion Hs; subst. now apply string_ltb_false_leb. }
Qed.

Lemma PackageMetadata_init_fields (name : string) (ecosystem : Ecosystem)
    (v : json) (lp fp : option datetime) (ms : list json)
    (dl hp repo : json) (raw0 : dict) (md : PackageMetadata) :
  PackageMetadata_init pydantic_int name ecosystem v lp fp ms dl hp repo raw0
  = Ok md ->
  meta_name md = name /\ meta_ecosystem md = ecosystem
  /\ latest_published md = lp /\ first_published md = fp
  /\ raw md = raw0
  /\ validate_str_list ms = Some (maintainers md)
  /\ validate_opt_int pydantic_int dl = Some (weekly_downloads md).
Proof.
  unfold PackageMetadata_init.
  destruct (validate_opt_str v), (validate_str_list ms),
    (validate_opt_int pydantic_int dl), (validate_opt_str hp),
    (validate_opt_str repo); intros H; inversion H; subst; simpl; auto 10.
Qed.

(** X16: when [_fetch_pypi] returns a record for a document whose kept
    upload times are all strings, [first_published] is [_parse_datetime]
    of the least of them in string order and [latest_published] that of
    the greatest; a document with no upload time at all gives a record
    with both timestamps absent. *)
Theorem _fetch_pypi_timestamps_are_extremes (spec : DependencySpec)
    (doc releases : dict) (md : PackageMetadata) :
  http_get ("https://pypi.org/pypi/" ++ dep_name spec ++ "/json")%string
  = Response 200 (Some (JObj doc)) ->
  dict_get doc "releases" = Some (JObj releases) ->
  all_strings (document_upload_times releases) ->
  _fetch_pypi http_get py_lt py_gt py_str pydantic_int spec = Ok (Some md) ->
  (document_upload_times releases = [] ->
   first_published md = None /\ latest_published md = None)
  /\ (document_upload_times releases <> [] ->
      exists lo hi,
        In (JStr lo) (document_upload_times releases)
        /\ In (JStr hi) (document_upload_times releases)
        /\ (forall s, In (JStr s) (document_upload_times releases) ->
                      String.leb lo s = true /\ String.leb s hi = true)
        /\ _parse_datetime (JStr lo) = Ok (first_published md)
        /\ _parse_datetime (JStr hi) = Ok (latest_published md)).
Proof.
  intros Hhttp Hrel Hall H. unfold _fetch_pypi in H. rewrite Hhttp in H.
  cbn [negb Z.eqb Pos.eqb response_json bind] in H.
  bind_step H info Einfo. bind_step H rel Erel. bind_step H ver Ever.
  bind_step H items Eitems. bind_step H st Est. bind_step H latest Elatest.
  bind_step H ms Ems. bind_step H msl Emsl. bind_step H lp Elp.
  bind_step H fp Efp. bind_step H dl Edl. bind_step H hp Ehp.
  bind_step H pu Epu. bind_step H raw0 Eraw. bind_step H md0 Emd.
  inversion H; subst md0. clear H.
  rewrite (py_get_some _ _ _ _ Hrel) in Erel. inversion Erel; subst rel.
  simpl in Eitems. inversion Eitems; subst items.
  destruct (pypi_releases_spec _ _ _ Est) as [Hfst Hleast];
    [exact Hall | now left |].
  simpl in Hfst.
  destruct (PackageMetadata_init_fields _ _ _ _ _ _ _ _ _ _ _ Emd)
    as (_ & _ & Hlp & Hfp & _).
  rewrite Hlp, Hfp. rewrite Hfst in *.
  split.
  - intros Hnil. rewrite Hnil in *.
    destruct Hleast as [[_ Hs]|(m & _ & [] & _)].
    rewrite Hs in Efp. inversion Elatest; subst latest.
    simpl in Elp, Efp. inversion Elp. inversion Efp. auto.
  - intros Hne.
    destruct Hleast as [[Hs _]|(lo & Hs & Hin & Hmin)]; [congruence|].
    rewrite Hs in Efp. simpl opt_json in Efp.
    destruct (document_upload_times releases) as [|t ts] eqn:Ht;
      [congruence|].
    destruct (Hall t) as (t0 & ->); [now left|].
    destruct (py_max_spec ts t0 [JStr t0] _ Elatest) as (hi & -> & Hhi & Hmax).
    { intros x Hx. apply Hall. now right. }
    { now left. }
    { intros s [Hs'|[]]. inversion Hs'; subst. apply string_leb_refl. }
    exists lo, hi. repeat split; auto.
Qed.

End NormaliseFacts.

Lemma _fetch_pypi_timestamps_are_extremes_witness :
  let registry := fun _ : string => Response 200 (Some (JObj two_release_document)) in
  exists md lo hi,
    _fetch_pypi registry lt_unused lt_unused str_unused int_unused sample_spec
    = Ok (Some md)
    /\ In (JStr lo) (document_upload_times two_releases)
    /\ In (JStr hi) (document_upload_times two_releases)
    /\ _parse_datetime (JStr lo) = Ok (first_published md)
    /\ _parse_datetime (JStr hi) = Ok (latest_published md)
    /\ first_published md = Some (mkDatetime 2023 1 1 0 0 0 0 (Some 0))
    /\ latest_published md = Some utc_2024_01_01.
Proof.
  intros registry.
  assert (Hall : all_strings (document_upload_times two_releases)).
  { intros t [<-|[<-|[]]]; eexists; reflexivity. }
  eexists.
  edestruct (proj2 (_fetch_pypi_timestamps_are_extremes registry lt_unused
                      lt_unused str_unused int_unused sample_spec
                      two_release_document two_releases _
                      eq_refl eq_refl Hall eq_refl))
    as (lo & hi & H1 & H2 & _ & H4 & H5).
  { vm_compute. discriminate. }
  exists lo, hi. split; [reflexivity|]. repeat split; assumption.
Defined.

Lemma validate_str_list_truthy (l : list json) :
  forall r, validate_str_list l = Some r -> Forall (fun v => truthy v = true) l ->
  Forall (fun s => s <> ""%string) r.
Proof.
  induction l as [|v l IH]; intros r H Hl.
  - inversion H. constructor.
  - inversion Hl as [|? ? Hv Hl']; subst.
    destruct v; try discriminate H. simpl in H.
    destruct (validate_str_list l) as [r'|]; [|discriminate H].
    inversion H; subst. constructor; [|now apply IH].
    intros ->. discriminate Hv.
Qed.

Section RecordFacts.

Variable http_get : string -> http_reply.
Variable py_lt : json -> json -> result bool.
Variable py_gt : json -> json -> result bool.
Variable py_str : json -> string.
Variable pydantic_int : json -> option Z.

(** X17: a record [_fetch_pypi] returns carries the spec's name as it is
    written, the ecosystem [pypi], the whole document as [raw], and a
    maintainer list without empty names. *)
Theorem _fetch_pypi_record_provenance (spec : DependencySpec) (doc : dict)
    (md : PackageMetadata) :
  http_get ("https://pypi.org/pypi/" ++ dep_name spec ++ "/json")%string
  = Response 200 (Some (JObj doc)) ->
  _fetch_pypi http_get py_lt py_gt py_str pydantic_int spec = Ok (Some md) ->
  meta_name md = dep_name spec
  /\ meta_ecosystem md = pypi
  /\ raw md = doc
  /\ Forall (fun s => s <> ""%string) (maintainers md).
Proof.
  intros Hhttp H. unfold _fetch_pypi in H. rewrite Hhttp in H.
  cbn [negb Z.eqb Pos.eqb response_json bind] in H.
  bind_step H info Einfo. bind_step H rel Erel. bind_step H ver Ever.
  bind_step H items Eitems. bind_step H st Est. bind_step H latest Elatest.
  bind_step H ms Ems. bind_step H msl Emsl. bind_step H lp Elp.
  bind_step H fp Efp. bind_step H dl Edl. bind_step H hp Ehp.
  bind_step H pu Epu. bind_step H raw0 Eraw. bind_step H md0 Emd.
  inversion H; subst md0. clear H.
  simpl in Eraw. inversion Eraw; subst raw0.
  destruct (PackageMetadata_init_fields _ _ _ _ _ _ _ _ _ _ _ _ Emd)
    as (Hn & He & _ & _ & Hr & Hm & _).
  repeat split; try assumption.
  eapply validate_str_list_truthy; [exact Hm|].
  apply Forall_forall. intros v Hv. apply filter_In in Hv. tauto.
Qed.

Lemma truthy_nonempty (s : string) : s <> ""%string -> truthy (JStr s) = true.
Proof.
  intros H. simpl. destruct (String.eqb s "") eqn:E; [|reflexivity].
  apply String.eqb_eq in E. contradiction.
Qed.

Lemma npm_time_loop_spec (items : dict) :
  forall seen st st',
    foldM (npm_time_step py_lt py_gt) items st = Ok st' ->
    all_nonempty_strings (seen ++ version_times items) ->
    extremes_of seen st ->
    extremes_of (seen ++ version_times items) st'.
Proof.
  unfold version_times.
  induction items as [|[version published] items IH];
    intros seen st st' H Hall Hinv.
  - simpl in H. inversion H; subst. simpl. now rewrite app_nil_r.
  - simpl in H. bind_step H st1 E. unfold npm_time_step in E.
    simpl fst in E. simpl snd in E. simpl filter in *.
    unfold bookkeeping at 1 in Hall. unfold bookkeeping at 1.
    simpl fst in *.
    destruct (String.eqb version "created" || String.eqb version "modified").
    + inversion E; subst st1. simpl in *. now apply (IH seen st st').
    + simpl negb in *. cbv iota in *. simpl map in *.
      replace (seen ++ published :: map snd (filter (fun item => negb (bookkeeping item)) items))
        with ((seen ++ [published])
              ++ map snd (filter (fun item => negb (bookkeeping item)) items))
        in * by (now rewrite <- app_assoc).
      apply (IH (seen ++ [published]) st1 st' H Hall).
      destruct (Hall published) as (p & -> & Hp).
      { apply in_app_iff. left. apply in_app_iff. right. now left. }
      destruct Hinv as [[-> ->]|(lo & hi & -> & Hlo & Hhi & Hext)].
      * simpl in E. inversion E; subst st1. right. exists p, p.
        simpl. repeat split; auto;
          destruct H0 as [H0|[]]; inversion H0; subst; apply string_leb_refl.
      * simpl fst in E. simpl snd in E.
        assert (Tlo : truthy (JStr lo) = true).
        { destruct (Hall (JStr lo)) as (x & Hx & Hne).
          - apply in_app_iff. left. apply in_app_iff. now left.
          - inversion Hx; subst. now apply truthy_nonempty. }
        assert (Thi : truthy (JStr hi) = true).
        { destruct (Hall (JStr hi)) as (x & Hx & Hne).
          - apply in_app_iff. left. apply in_app_iff. now left.
          - inversion Hx; subst. now apply truthy_nonempty. }
        rewrite Tlo, Thi in E. cbn [negb gt lt bind] in E.
        inversion E; subst st1. clear E. right.
        exists (if String.ltb p lo then p else lo),
               (if String.ltb hi p then p else hi).
        split.
        { destruct (String.ltb hi p), (String.ltb p lo); reflexivity. }
        split.
        { destruct (String.ltb p lo); apply in_app_iff;
            [right; now left | now left]. }
        split.
        { destruct (String.ltb hi p); apply in_app_iff;
            [right; now left | now left]. }
        intros s Hs. apply in_app_iff in Hs.
        destruct Hs as [Hs|[Hs|[]]].
        { destruct (Hext s Hs) as [L1 L2]. split.
          - destruct (String.ltb p lo) eqn:Hl; [|exact L1].
            eapply string_leb_trans; [apply string_ltb_leb; exact Hl|exact L1].
          - destruct (String.ltb hi p) eqn:Hh; [|exact L2].
            eapply string_leb_trans; [exact L2|now apply string_ltb_leb]. }
        { inversion Hs; subst s. split.
          - destruct (String.ltb p lo) eqn:Hl;
              [apply string_leb_refl | now apply string_ltb_false_leb].
          - destruct (String.ltb hi p) eqn:Hh;
              [apply string_leb_refl | now apply string_ltb_false_leb]. }
Qed.

(** X18: when [_fetch_npm] returns a record for a document whose [time]
    values, the keys [created] and [modified] left aside, are non-empty
    strings, [first_published] is [_parse_datetime] of the least of them
    in string order and [latest_published] that of the greatest; the two
    bookkeeping entries never count, and with no other entry both
    timestamps are absent.  The record carries the spec's name, the
    ecosystem [npm] and the whole document. *)
Theorem _fetch_npm_timestamps_are_extremes (spec : DependencySpec)
    (doc time_section : dict) (md : PackageMetadata) :
  http_get ("https://registry.npmjs.org/" ++ dep_name spec)%string
  = Response 200 (Some (JObj doc)) ->
  dict_get doc "time" = Some (JObj time_section) ->
  all_nonempty_strings (version_times time_section) ->
  _fetch_npm http_get py_lt py_gt pydantic_int spec = Ok (Some md) ->
  (version_times time_section = [] ->
   first_published md = None /\ latest_published md = None)
  /\ (version_times time_section <> [] ->
      exists lo hi,
        In (JStr lo) (version_times time_section)
        /\ In (JStr hi) (version_times time_section)
        /\ (forall s, In (JStr s) (version_times time_section) ->
                      String.leb lo s = true /\ String.leb s hi = true)
        /\ _parse_datetime (JStr lo) = Ok (first_published md)
        /\ _parse_datetime (JStr hi) = Ok (latest_published md))
  /\ meta_name md = dep_name spec
  /\ meta_ecosystem md = npm
  /\ raw md = doc.
Proof.
  intros Hhttp Htime Hall H. unfold _fetch_npm in H. rewrite Hhttp in H.
  cbn [negb Z.eqb Pos.eqb response_json bind] in H.
  bind_step H ts Ets. bind_step H versions Eversions. bind_step H tags Etags.
  bind_step H latest Elatest. bind_step H items Eitems. bind_step H st Est.
  bind_step H ms Ems. bind_step H msl Emsl. bind_step H dl Edl.
  bind_step H vp Evp. bind_step H hp Ehp. bind_step H repo Erepo.
  bind_step H lp Elp. bind_step H fp Efp. bind_step H raw0 Eraw.
  bind_step H md0 Emd.
  inversion H; subst md0. clear H.
  rewrite (py_get_some _ _ _ _ Htime) in Ets. inversion Ets; subst ts.
  simpl in Eitems. inversion Eitems; subst items.
  simpl in Eraw. inversion Eraw; subst raw0.
  pose proof (npm_time_loop_spec _ [] _ _ Est Hall
                (or_introl (conj eq_refl eq_refl))) as Hext.
  simpl in Hext.
  destruct (PackageMetadata_init_fields _ _ _ _ _ _ _ _ _ _ _ _ Emd)
    as (Hn & He & Hlp & Hfp & Hr & _).
  rewrite Hlp, Hfp.
  split; [|split; [|auto]].
  - intros Hnil. rewrite Hnil in Hext.
    destruct Hext as [[_ ->]|(lo & hi & _ & [] & _)].
    simpl in Elp, Efp. inversion Elp. inversion Efp. auto.
  - intros Hne.
    destruct Hext as [[Hs _]|(lo & hi & -> & Hlo & Hhi & Hext)]; [congruence|].
    exists lo, hi. simpl in Elp, Efp. auto 10.
Qed.

(** X19: when the download-count endpoint cannot be reached or answers
    with a status other than 200, [_fetch_npm] still returns its record,
    if it returns one, with [weekly_downloads] absent. *)
Theorem _fetch_npm_without_download_count (spec : DependencySpec)
    (md : PackageMetadata) :
  (http_get ("https://api.npmjs.org/downloads/point/last-week/"
             ++ dep_name spec)%string = TransportFailure
   \/ exists status body,
        http_get ("https://api.npmjs.org/downloads/point/last-week/"
                  ++ dep_name spec)%string = Response status body
        /\ status <> 200) ->
  _fetch_npm_downloads http_get (dep_name spec) = Ok JNull
  /\ (_fetch_npm http_get py_lt py_gt pydantic_int spec = Ok (Some md) ->
      weekly_downloads md = None).
Proof.
  intros Hdl.
  assert (Hnone : _fetch_npm_downloads http_get (dep_name spec) = Ok JNull).
  { unfold _fetch_npm_downloads.
    destruct Hdl as [-> | (status & body & -> & Hst)]; [reflexivity|].
    apply Z.eqb_neq in Hst. now rewrite Hst. }
  split; [exact Hnone|].
  intros H. unfold _fetch_npm in H.
  destruct (http_get ("https://registry.npmjs.org/" ++ dep_name spec)%string)
    as [|status body]; [discriminate H|].
  destruct (negb (status =? 200)); [discriminate H|].
  bind_step H pl Epl.
  bind_step H ts Ets. bind_step H versions Eversions. bind_step H tags Etags.
  bind_step H latest Elatest. bind_step H items Eitems. bind_step H st Est.
  bind_step H ms Ems. bind_step H msl Emsl. bind_step H dl Edl.
  bind_step H vp Evp. bind_step H hp Ehp. bind_step H repo Erepo.
  bind_step H lp Elp. bind_step H fp Efp. bind_step H raw0 Eraw.
  bind_step H md0 Emd.
  inversion H; subst md0. clear H.
  inversion Hnone; subst dl.
  destruct (PackageMetadata_init_fields _ _ _ _ _ _ _ _ _ _ _ _ Emd)
    as (_ & _ & _ & _ & _ & _ & Hw).
  simpl in Hw. congruence.
Qed.

End RecordFacts.

Lemma _fetch_pypi_record_provenance_witness :
  let registry := fun _ : string => Response 200 (Some (JObj two_release_document)) in
  exists md,
    _fetch_pypi registry lt_unused lt_unused str_unused int_unused sample_spec
    = Ok (Some md)
    /\ maintainers md = ["alice"%string]
    /\ meta_name md = "reqeusts"%string
    /\ raw md = two_release_document
    /\ Forall (fun s => s <> ""%string) (maintainers md).
Proof.
  intros registry. eexists. split; [reflexivity|]. split; [reflexivity|].
  destruct (_fetch_pypi_record_provenance registry lt_unused lt_unused
              str_unused int_unused sample_spec two_release_document _
              eq_refl eq_refl) as (Hn & _ & Hr & Hm).
  auto.
Defined.

Lemma _fetch_npm_timestamps_are_extremes_witness :
  exists md lo hi,
    _fetch_npm npm_registry lt_unused lt_unused int_unused requests_spec
    = Ok (Some md)
    /\ In (JStr lo) (version_times npm_time_section)
    /\ In (JStr hi) (version_times npm_time_section)
    /\ _parse_datetime (JStr lo) = Ok (first_published md)
    /\ _parse_datetime (JStr hi) = Ok (latest_published md)
    /\ first_published md = Some (mkDatetime 2011 1 1 0 0 0 0 (Some 0))
    /\ latest_published md = Some (mkDatetime 2012 1 1 0 0 0 0 (Some 0)).
Proof.
  assert (Hall : all_nonempty_strings (version_times npm_time_section)).
  { intros t [<-|[<-|[]]]; eexists; (split; [reflexivity | discriminate]). }
  eexists.
  edestruct (proj1 (proj2 (_fetch_npm_timestamps_are_extremes npm_registry
                             lt_unused lt_unused int_unused requests_spec
                             npm_document npm_time_section _
                             eq_refl eq_refl Hall eq_refl)))
    as (lo & hi & H1 & H2 & _ & H4 & H5).
  { vm_compute. discriminate. }
  exists lo, hi. split; [reflexivity|]. repeat split; assumption.
Defined.

Lemma _fetch_npm_without_download_count_witness :
  exists md,
    _fetch_npm npm_registry lt_unused lt_unused int_unused requests_spec
    = Ok (Some md)
    /\ weekly_downloads md = None.
Proof.
  eexists. split; [reflexivity|].
  refine (proj2 (_fetch_npm_without_download_count npm_registry lt_unused
                   lt_unused int_unused requests_spec _ _) eq_refl).
  right. exists 503, None. split; [reflexivity | discriminate].
Defined.

(** ** Parsing manifests *)

Lemma mapM_spec {A B : Type} (f : A -> result B) (P : A -> B -> Prop)
    (l : list A) :
  (forall a b, In a l -> f a = Ok b -> P a b) ->
  forall r, mapM f l = Ok r -> Forall2 P l r.
Proof.
  induction l as [|a l IH]; intros Hf r H.
  - inversion H. constructor.
  - simpl in H. bind_step H b Eb. bind_step H bs Ebs.
    inversion H; subst. constructor.
    + apply Hf; [now left | exact Eb].
    + apply IH; [|reflexivity]. intros a' b' Hin. apply Hf. now right.
Qed.

Lemma DependencySpec_init_fields (name : string) (version : json)
    (ecosystem : Ecosystem) (path : string) (spec : DependencySpec) :
  DependencySpec_init name version ecosystem path = Ok spec ->
  dep_name spec = name /\ dep_ecosystem spec = ecosystem
  /\ dep_source_path spec = path
  /\ validate_opt_str version = Some (dep_version spec).
Proof.
  unfold DependencySpec_init.
  destruct version; intros H; inversion H; subst; simpl; auto.
Qed.

Lemma DependencySpec_init_eq (name : string) (version : json)
    (ecosystem : Ecosystem) (path : string) (spec : DependencySpec) :
  DependencySpec_init name version ecosystem path = Ok spec ->
  spec = mkDependencySpec name (dep_version spec) ecosystem path
  /\ validate_opt_str version = Some (dep_version spec).
Proof.
  unfold DependencySpec_init.
  destruct version; intros H; inversion H; subst; simpl; auto.
Qed.

Lemma dict_set_keys (d : dict) (key : string) (v : json) :
  exists extra, map fst (dict_set d key v) = map fst d ++ extra.
Proof.
  induction d as [|[k w] d (extra & IH)]; simpl.
  - now exists [key].
  - destruct (String.eqb k key); simpl.
    + exists []. now rewrite app_nil_r.
    + exists extra. now rewrite IH.
Qed.

Lemma dict_update_keys (d2 : dict) :
  forall d1, exists extra, map fst (dict_update d1 d2) = map fst d1 ++ extra.
Proof.
  unfold dict_update.
  induction d2 as [|[k v] d2 IH]; intros d1; simpl.
  - exists []. now rewrite app_nil_r.
  - destruct (IH (dict_set d1 k v)) as (e2 & ->).
    destruct (dict_set_keys d1 k v) as (e1 & ->).
    exists (e1 ++ e2). now rewrite app_assoc.
Qed.

Lemma dict_get_not_in (d : dict) (k : string) :
  ~ In k (map fst d) -> dict_get d k = None.
Proof.
  induction d as [|[k' v] d IH]; simpl; [reflexivity|].
  intros H. destruct (String.eqb k' k) eqn:E.
  - apply String.eqb_eq in E. tauto.
  - apply IH. tauto.
Qed.

Lemma dict_update_get (d2 : dict) :
  forall d1 k,
    NoDup (map fst d2) ->
    dict_get (dict_update d1 d2) k
    = match dict_get d2 k with
      | Some v => Some v
      | None => dict_get d1 k
      end.
Proof.
  unfold dict_update.
  induction d2 as [|[k0 v0] d2 IH]; intros d1 k Hnd; [reflexivity|].
  simpl in Hnd. inversion Hnd as [|? ? Hnotin Hnd']; subst.
  simpl fold_left. rewrite IH by assumption. simpl dict_get.
  destruct (String.eqb k0 k) eqn:E.
  - apply String.eqb_eq in E. subst k0.
    rewrite (dict_get_not_in _ _ Hnotin). apply dict_get_set_same.
  - destruct (dict_get d2 k); [reflexivity|].
    apply dict_get_set_other. intros ->.
    now rewrite String.eqb_refl in E.
Qed.

Lemma dict_get_in (d : dict) (k : string) (v : json) :
  dict_get d k = Some v -> In (k, v) d.
Proof.
  induction d as [|[k' w] d IH]; simpl; [discriminate|].
  destruct (String.eqb k' k) eqn:E.
  - apply String.eqb_eq in E. intros H; inversion H; subst. now left.
  - intros H. right. now apply IH.
Qed.

(** X20: for a [package.json] whose two sections are objects,
    [_parse_package_json] returns, when it returns, one npm spec per
    distinct name, named in lower case and pointing at the manifest; the
    specs of [dependencies] come first and in their order; and a name
    that [devDependencies] lists takes the version given there, also when
    [dependencies] lists it with another one. *)
Theorem _parse_package_json_merges_sections (m : manifest) (doc d1 d2 : dict)
    (specs : list DependencySpec) :
  manifest_json m = Some (JObj doc) ->
  py_get (JObj doc) "dependencies" (JObj []) = Ok (JObj d1) ->
  py_get (JObj doc) "devDependencies" (JObj []) = Ok (JObj d2) ->
  NoDup (map fst d2) ->
  _parse_package_json m = Ok specs ->
  map dep_name specs = map (fun kv => lower (fst kv)) (dict_update d1 d2)
  /\ Forall (fun s => dep_ecosystem s = npm
                      /\ dep_source_path s = manifest_path m) specs
  /\ firstn (List.length d1) (map dep_name specs)
     = map (fun kv => lower (fst kv)) d1
  /\ (forall name v,
        dict_get d2 name = Some (JStr v) ->
        In (mkDependencySpec (lower name) (Some v) npm (manifest_path m))
           specs).
Proof.
  intros Hdoc H1 H2 Hnd H. unfold _parse_package_json in H.
  rewrite Hdoc in H. cbn [response_json bind] in H.
  rewrite H1, H2 in H. cbn [bind py_merge] in H.
  pose proof (mapM_spec _
                (fun kv s => s = mkDependencySpec (lower (fst kv))
                                   (dep_version s) npm (manifest_path m)
                             /\ validate_opt_str (snd kv) = Some (dep_version s))
                _ (fun kv s _ E => DependencySpec_init_eq _ _ _ _ _ E) _ H)
    as Hall.
  clear H.
  assert (Hnames : map dep_name specs
                   = map (fun kv => lower (fst kv)) (dict_update d1 d2)).
  { clear -Hall. induction Hall as [|kv s l r [Hs _] _ IH]; [reflexivity|].
    simpl. rewrite IH, Hs. reflexivity. }
  split; [exact Hnames|]. split; [|split].
  - clear -Hall. induction Hall as [|kv s l r [Hs _] _ IH]; constructor; auto.
    rewrite Hs. simpl. auto.
  - rewrite Hnames. destruct (dict_update_keys d2 d1) as (extra & Hk).
    assert (E1 : forall l : dict,
               map (fun kv => lower (fst kv)) l = map lower (map fst l))
      by (intros; now rewrite map_map).
    rewrite !E1, Hk, map_app, firstn_app, !length_map, Nat.sub_diag.
    simpl firstn at 2. rewrite app_nil_r.
    apply firstn_all2. rewrite !length_map. lia.
  - intros name v Hv.
    assert (Hin : In (name, JStr v) (dict_update d1 d2)).
    { apply dict_get_in. rewrite dict_update_get by assumption.
      now rewrite Hv. }
    clear -Hall Hin. induction Hall as [|kv s l r [Hs Hver] _ IH];
      [destruct Hin|].
    destruct Hin as [->|Hin]; [|right; now apply IH].
    left. simpl in *. inversion Hver as [Hver']. rewrite Hs.
    now rewrite <- Hver'.
Qed.

Lemma _parse_package_json_merges_sections_witness :
  _parse_package_json package_json_manifest
  = Ok [mkDependencySpec "react" (Some "^18.0.0") npm "app/package.json";
        mkDependencySpec "eslint" (Some "^8.0.0") npm "app/package.json"]
  /\ In (mkDependencySpec "eslint" (Some "^8.0.0") npm "app/package.json")
        [mkDependencySpec "react" (Some "^18.0.0") npm "app/package.json";
         mkDependencySpec "eslint" (Some "^8.0.0") npm "app/package.json"].
Proof.
  split; [reflexivity|].
  refine (proj2 (proj2 (proj2
            (_parse_package_json_merges_sections package_json_manifest
               package_json_document _ _ _ eq_refl eq_refl eq_refl _ eq_refl)))
            "eslint"%string "^8.0.0"%string eq_refl).
  repeat constructor. intros [].
Defined.



Lemma walk_entry_eq (path name : string) (kvs : dict) :
  walk_entry path name (JObj kvs)
  = (spec <- DependencySpec_init (lower name)
               (opt_json (dict_get kvs "version")) npm path ;;
     nested <- match dict_get kvs "dependencies" with
               | Some (JObj n) => walk path n
               | _ => Ok []
               end ;;
     Ok (spec :: nested)).
Proof.
  simpl. unfold opt_json.
  destruct (DependencySpec_init _ _ npm path) as [spec|e]; [|reflexivity].
  cbn [bind]. f_equal.
  induction kvs as [|[k v] kvs IH]; [reflexivity|].
  simpl. destruct (String.eqb k "dependencies"); [|exact IH].
  destruct v; try reflexivity.
  clear. induction kvs0 as [|[nm inf] n IHn]; [reflexivity|].
  simpl. rewrite IHn. reflexivity.
Qed.

Lemma json_nested_ind (P : json -> Prop) :
  P JNull -> (forall b, P (JBool b)) -> (forall n, P (JInt n)) ->
  (forall x, P (JFloat x)) -> (forall s, P (JStr s)) ->
  (forall l, Forall P l -> P (JList l)) ->
  (forall kvs, Forall (fun kv => P (snd kv)) kvs -> P (JObj kvs)) ->
  forall j, P j.
Proof.
  intros HNull HBool HInt HFloat HStr HList HObj.
  fix IH 1. intros [ |b|n|x|s|l|kvs].
  - exact HNull.
  - apply HBool.
  - apply HInt.
  - apply HFloat.
  - apply HStr.
  - apply HList.
    revert l. fix IHl 1. intros [|j l]; constructor; [apply IH | apply IHl].
  - apply HObj.
    revert kvs. fix IHk 1. intros [|[k v] kvs]; constructor;
      [apply IH | apply IHk].
Qed.

Lemma walk_normalised_aux (j : json) :
  (forall path name specs,
     walk_entry path name j = Ok specs -> Forall (normalised npm path) specs)
  /\ (forall n path specs,
        j = JObj n -> walk path n = Ok specs ->
        Forall (normalised npm path) specs).
Proof.
  induction j as [ | | | | | l _ | kvs IH] using json_nested_ind;
    try (split; [intros ? ? ? H; simpl in H; discriminate H
                | intros ? ? ? H; discriminate H]).
  assert (Hwalk : forall path specs,
            walk path kvs = Ok specs -> Forall (normalised npm path) specs).
  { induction kvs as [|[nm inf] kvs IHk]; intros path specs H.
    - inversion H. constructor.
    - inversion IH as [|? ? [Hentry _] IH']; subst.
      simpl in H. bind_step H here Ehere. bind_step H there Ethere.
      inversion H; subst. apply Forall_app. split.
      + eapply Hentry. exact Ehere.
      + now apply IHk. }
  split.
  - intros path name specs H. rewrite walk_entry_eq in H.
    bind_step H spec Espec. bind_step H nested Enested.
    inversion H; subst. constructor.
    + destruct (DependencySpec_init_fields _ _ _ _ _ Espec)
        as (Hn & He & Hp & _).
      unfold normalised. rewrite Hn, He, Hp, lower_idempotent. auto.
    + destruct (dict_get kvs "dependencies") as [v|] eqn:Hv;
        [|inversion Enested; constructor].
      destruct v; try (inversion Enested; constructor).
      apply dict_get_in in Hv.
      rewrite Forall_forall in IH. destruct (IH _ Hv) as [_ Hmap].
      eapply Hmap; [reflexivity | exact Enested].
  - intros n path specs E. inversion E; subst n. apply Hwalk.
Qed.

Lemma DependencySpec_init_normalised (e : Ecosystem) (name : string)
    (version : json) (path : string) (s : DependencySpec) :
  DependencySpec_init (lower name) version e path = Ok s ->
  normalised e path s.
Proof.
  intros H.
  destruct (DependencySpec_init_fields _ _ _ _ _ H) as (Hn & He & Hp & _).
  unfold normalised. rewrite Hn, He, Hp, lower_idempotent. auto.
Qed.

Lemma pep_entry_normalised (path : string) (kv : string * json)
    (s : DependencySpec) :
  (version <- py_get (snd kv) "version" JNull ;;
   DependencySpec_init (lower (fst kv)) version pypi path) = Ok s ->
  normalised pypi path s.
Proof.
  intros H. bind_step H v Ev.
  eapply DependencySpec_init_normalised. exact H.
Qed.

(** X22: every spec the JSON parsers produce is normalised: it has the
    parser's ecosystem (npm for [package.json] and [package-lock.json],
    at every nesting depth; pypi for [Pipfile.lock]), it points at the
    manifest it came from, and its name is in lower case, so that the
    slug is the ecosystem, a colon and the name as it stands. *)
Theorem json_parsers_normalise_specs (m : manifest)
    (specs : list DependencySpec) :
  (_parse_package_json m = Ok specs ->
   Forall (normalised npm (manifest_path m)) specs)
  /\ (_parse_package_lock m = Ok specs ->
      Forall (normalised npm (manifest_path m)) specs)
  /\ (_parse_pep_lock m = Ok specs ->
      Forall (normalised pypi (manifest_path m)) specs)
  /\ (forall e s, normalised e (manifest_path m) s ->
                  slug s = (Ecosystem_str e ++ ":" ++ dep_name s)%string).
Proof.
  split; [|split; [|split]].
  - intros H. unfold _parse_package_json in H.
    bind_step H pl Epl. bind_step H deps Edeps. bind_step H dev Edev.
    bind_step H merged Emerged.
    pose proof (mapM_spec _ (fun _ s => normalised npm (manifest_path m) s)
                  _ (fun kv s _ E =>
                       DependencySpec_init_normalised _ _ _ _ _ E) _ H)
      as Hall.
    clear -Hall. induction Hall; constructor; auto.
  - intros H. unfold _parse_package_lock in H.
    bind_step H pl Epl. bind_step H deps Edeps. bind_step H dep_map Emap.
    destruct (walk_normalised_aux (JObj dep_map)) as [_ Hmap].
    eapply Hmap; [reflexivity | exact H].
  - intros H. unfold _parse_pep_lock in H.
    destruct (manifest_json m) as [pl|]; [|inversion H; constructor].
    destruct (String.eqb (manifest_name m) "Pipfile.lock");
      [|inversion H; constructor].
    assert (Hsection : forall acc section acc',
              Forall (normalised pypi (manifest_path m)) acc ->
              pep_section (manifest_path m) pl acc section = Ok acc' ->
              Forall (normalised pypi (manifest_path m)) acc').
    { intros acc section acc' Hacc Hs. unfold pep_section in Hs.
      bind_step Hs deps Edeps.
      destruct deps; try (inversion Hs; subst; exact Hacc).
      bind_step Hs more Emore. inversion Hs; subst.
      apply Forall_app. split; [exact Hacc|].
      pose proof (mapM_spec _ (fun _ s => normalised pypi (manifest_path m) s)
                    _ (fun kv s _ E => pep_entry_normalised _ _ _ E) _ Emore)
        as Hall.
      clear -Hall. induction Hall; constructor; auto. }
    simpl in H. bind_step H s1 E1. bind_step H s2 E2. inversion H; subst.
    eapply Hsection; [|exact E2]. eapply Hsection; [|exact E1]. constructor.
  - intros e s (He & _ & Hl). unfold slug. now rewrite He, Hl.
Qed.

Lemma json_parsers_normalise_specs_witness :
  _parse_package_lock package_lock_manifest
  = Ok [mkDependencySpec "express" (Some "4.18.2") npm "app/package-lock.json";
        mkDependencySpec "debug" (Some "2.6.9") npm "app/package-lock.json"]
  /\ Forall (normalised npm "app/package-lock.json")
       [mkDependencySpec "express" (Some "4.18.2") npm "app/package-lock.json";
        mkDependencySpec "debug" (Some "2.6.9") npm "app/package-lock.json"].
Proof.
  split; [reflexivity|].
  exact (proj1 (proj2 (json_parsers_normalise_specs package_lock_manifest _))
           eq_refl).
Defined.

(** ** More on timestamps and on the score *)

Lemma replace_Z_app (a b : string) :
  replace_Z (a ++ b) = (replace_Z a ++ replace_Z b)%string.
Proof.
  induction a as [|c a IH]; simpl; [reflexivity|].
  destruct (Ascii.eqb c "Z"); simpl; now rewrite IH.
Qed.

Lemma truthy_app_nonempty (a b c : string) :
  c <> ""%string -> truthy (JStr (a ++ c ++ b)) = true.
Proof.
  intros Hc. apply truthy_nonempty. destruct a; simpl.
  - destruct c; [contradiction | discriminate].
  - discriminate.
Qed.

(** X23: [_parse_datetime] reads a [Z] as the offset [+00:00] wherever it
    stands in the text, not only at its end: replacing one [Z] of a
    timestamp string by [+00:00] does not change the outcome. *)
Theorem _parse_datetime_reads_Z_as_utc (a b : string) :
  _parse_datetime (JStr (a ++ "Z" ++ b))
  = _parse_datetime (JStr (a ++ "+00:00" ++ b)).
Proof.
  unfold _parse_datetime.
  rewrite !truthy_app_nonempty by discriminate. cbn [negb].
  now rewrite !replace_Z_app.
Qed.

(** X24: the score of a dependency with metadata is the sum, clamped to
    100, of 50 for a typosquat signal, 25 for fresh-release, 20 for
    stale-package, 15 for popularity and 20 for maintainers, each
    counted when its signal is present. *)
Theorem score_is_clamped_weight_of_fired_categories
    (tops : list (string * list string)) (now_r now_s : Z)
    (spec : DependencySpec) (m : PackageMetadata) (a : PackageAssessment) :
  assess_dependency tops now_r now_s spec (Some m) = Ok a ->
  let weight c w := if occurs c (signals a) then w else 0 in
  score a
  = Z.min 100 (weight typosquat 50 + weight fresh_release 25
               + weight stale_package 20 + weight popularity 15
               + weight maintainers_cat 20)
  /\ 0 <= score a <= 100.
Proof.
  intros H.
  pose proof (built_score _ (assess_dependency_built _ _ _ _ _ _ H)) as Hs.
  apply assess_dependency_some in H.
  destruct H as (l1 & l2 & l3 & l4 & l5 & -> & H1 & H2 & H3 & H4 & H5).
  rewrite Hs. clear Hs. rewrite add_signals_signals. simpl.
  destruct H1 as [->|(d & top & ->)], H2 as [[-> _]|[-> _]],
           H3 as [[-> _]|[-> _]], H4 as [(n & -> & _)|[-> _]],
           H5 as [[-> _]|[-> _]];
    cbn; split; lia.
Qed.

Lemma score_is_clamped_weight_of_fired_categories_witness :
  exists a,
    assess_dependency sample_corpus t_2024_01_01 t_2024_01_01 sample_spec
      (Some (sample_metadata (Some utc_2024_01_01) (Some utc_2024_01_01)))
    = Ok a
    /\ score a = Z.min 100 (50 + 25 + 0 + 0 + 20).
Proof.
  eexists. split; [reflexivity|].
  exact (proj1 (score_is_clamped_weight_of_fired_categories sample_corpus
                  t_2024_01_01 t_2024_01_01 sample_spec
                  (sample_metadata (Some utc_2024_01_01) (Some utc_2024_01_01))
                  _ eq_refl)).
Defined.
